(** * process-spy: the process-monitoring engine of [core/process_monitor.py]

    A shallow embedding of the [ProcessInfo] record and the [ProcessMonitor]
    class: enumeration ([get_processes]), change detection against the
    rolling cache ([_detect_changes]), the polling loop ([_monitor_loop]) with
    its [start_monitoring]/[stop_monitoring] lifecycle, callback dispatch,
    [kill_process] and [save_snapshot].

    The host's process services (psutil), the clock, the file system and the
    thread scheduler are outside the program; each operation takes what the
    host answered as an argument.  Every side effect the class performs (a
    log line, a callback invocation, a sleep, a thread start or join) is
    appended to one chronological trace carried in the monitor's state. *)

From Stdlib Require Import ZArith List Ascii String DecimalString PrimFloat.
From stdpp Require Import gmap strings list.

Set Warnings "-register-all,-clear-no-such-hyp".

Local Open Scope Z_scope.
Local Open Scope string_scope.
Local Open Scope list_scope.

(** ** Python values used by the monitor *)

Module Py.

(** Exceptions, all of them subclasses of Python's [Exception].  The first
    four are psutil's; [ZombieProcess] is a subclass of [NoSuchProcess].
    [OtherError cls] stands for any other exception class ([ValueError],
    [OSError], [RuntimeError], ...). *)
Inductive exn : Type :=
| NoSuchProcess
| ZombieProcess
| AccessDenied
| TimeoutExpired
| OtherError (cls : string).

(** The outcome of evaluating a Python expression or call. *)
Inductive result (A : Type) : Type :=
| Ok (a : A)
| Raise (e : exn).
Arguments Ok {A} a.
Arguments Raise {A} e.

(** [x or d] on an attribute that psutil reports as a string or [None]:
    [None] and the empty string are falsy. *)
Definition or_str (x : option string) (d : string) : string :=
  match x with
  | Some EmptyString => d
  | Some s => s
  | None => d
  end.

(** [x or d] on a float or [None]: [None], [0.0] and [-0.0] are falsy
    (a NaN is truthy). *)
Definition or_float (x : option float) (d : float) : float :=
  match x with
  | Some f => if PrimFloat.eqb f 0%float then d else f
  | None => d
  end.

(** [x or d] on a list or [None]: [None] and the empty list are falsy. *)
Definition or_list {A : Type} (x : option (list A)) (d : list A) : list A :=
  match x with
  | Some [] => d
  | Some l => l
  | None => d
  end.

(** A JSON-serialisable value, as [json.dump] receives it.  A [dict] keeps
    its insertion order. *)
Inductive json : Type :=
| JInt (z : Z)
| JFloat (f : float)
| JStr (s : string)
| JList (l : list json)
| JDict (d : list (string * json)).

End Py.
Import Py.

(** ** [ProcessInfo] *)

Record ProcessInfo : Type := mkProcessInfo
  { pid : Z;
    name : string;
    cpu_percent : float;
    memory_percent : float;
    status : string;
    create_time : float;
    cmdline : list string }.

Definition to_dict (self : ProcessInfo) : json :=
  JDict [ ("pid", JInt (pid self));
          ("name", JStr (name self));
          ("cpu_percent", JFloat (cpu_percent self));
          ("memory_percent", JFloat (memory_percent self));
          ("status", JStr (status self));
          ("create_time", JFloat (create_time self));
          ("cmdline", JList (JStr <$> cmdline self)) ].

(** ** The host boundary *)

(** [proc.info] as [psutil.process_iter(attrs)] fills it: the pid is always
    there, any other attribute is [None] when the host could not report it. *)
Record proc_info : Type := mkInfo
  { info_pid : Z;
    info_name : option string;
    info_cpu_percent : option float;
    info_memory_percent : option float;
    info_status : option string;
    info_create_time : option float;
    info_cmdline : option (list string) }.

(** One run of the [for] loop of [get_processes]: for each step, either
    the [info] dictionary of the process that [process_iter] yielded
    ([Ok]), or the exception raised at that step ([Raise]).  With psutil
    every step of an enumeration is an [Ok] (see [process_iter] below):
    the attributes are fetched by the generator, in the [for] header, and
    the body only reads the filled dictionary.  The [except] clause of
    the body is modelled all the same; a [Raise] of one of its three
    classes stands for an exception raised inside the [try] block. *)
Abbreviation enumeration := (list (result proc_info)).

(** What psutil gets when it reads one attribute of a process on behalf
    of [process_iter(attrs)]: its value, or a refusal ([AccessDenied], or
    [ZombieProcess] for a zombie). *)
Inductive reading (A : Type) : Type :=
| Value (a : A)
| Refused.
Arguments Value {A} a.
Arguments Refused {A}.

(** A process of the host at the time of an enumeration.  One that
    vanishes while its attributes are read makes psutil's [as_dict]
    raise [NoSuchProcess]. *)
Record host_process : Type := mkHostProcess
  { hp_pid : Z;
    hp_vanishes : bool;
    hp_name : reading string;
    hp_cpu_percent : reading float;
    hp_memory_percent : reading float;
    hp_status : reading string;
    hp_create_time : reading float;
    hp_cmdline : reading (list string) }.

(** The entry of the [info] dictionary for one attribute: [as_dict]
    stores its [ad_value], [None], for an attribute that was refused. *)
Definition ad_value {A : Type} (r : reading A) : option A :=
  match r with
  | Value a => Some a
  | Refused => None
  end.

(** [proc.as_dict(attrs, ad_value=None)] for a process that does not
    vanish. *)
Definition as_dict (hp : host_process) : proc_info :=
  {| info_pid := hp_pid hp;
     info_name := ad_value (hp_name hp);
     info_cpu_percent := ad_value (hp_cpu_percent hp);
     info_memory_percent := ad_value (hp_memory_percent hp);
     info_status := ad_value (hp_status hp);
     info_create_time := ad_value (hp_create_time hp);
     info_cmdline := ad_value (hp_cmdline hp) |}.

(** [psutil.process_iter(attrs)]: the generator fills [proc.info] with
    [as_dict] and yields the process; it catches the [NoSuchProcess] of a
    process that vanishes and passes on to the next one. *)
Definition process_iter (table : list host_process) : enumeration :=
  (fun hp => Ok (as_dict hp))
  <$> List.filter (fun hp => negb (hp_vanishes hp)) table.

(** The answers of the host to the calls of [kill_process]:
    [psutil.Process(pid)], [proc.terminate()], [proc.wait(timeout)] and
    [proc.name()]. *)
Record kill_host : Type := mkKillHost
  { host_Process : Z -> option exn;
    host_terminate : Z -> option exn;
    host_wait : Z -> Z -> option exn;
    host_name : Z -> result string }.

(** ** Effects *)

Inductive level : Type := INFO | ERROR.

(** The messages the monitor logs, one constructor per format string. *)
Inductive message : Type :=
| MsgNewProcess (nm : string) (p : Z)
| MsgProcessTerminated (nm : string) (p : Z)
| MsgKilled (p : Z) (nm : string)
| MsgKillFailed (p : Z) (e : exn)
| MsgMonitoringStarted
| MsgMonitoringStopped
| MsgCallbackError (e : exn)
| MsgMonitorLoopError (e : exn)
| MsgSnapshotSaved (filename : string).

Abbreviation snapshot := (list ProcessInfo).

Inductive effect : Type :=
| Log (lv : level) (msg : message)
| Call (cb : nat) (arg : snapshot)
| Sleep (seconds : float)
| ThreadStart (tid : nat)
| ThreadJoin (tid : nat) (timeout : Z).

(** A registered callback: an identity and what calling it does. *)
Record callback : Type := mkCallback
  { cb_id : nat;
    cb_run : snapshot -> option exn }.

(** ** [ProcessMonitor] *)

Record ProcessMonitor : Type := mkMonitor
  { monitoring : bool;
    monitor_thread : option nat;
    stop_event : bool;
    update_interval : float;
    process_cache : gmap Z ProcessInfo;
    callbacks : list callback;
    (* not attributes of the class: the threads that were started and have
       not been seen to finish, and the trace of effects so far *)
    live_threads : list nat;
    threads_started : nat;
    trace : list effect }.

(** [ProcessMonitor.__init__] *)
Definition init : ProcessMonitor :=
  {| monitoring := false;
     monitor_thread := None;
     stop_event := false;
     update_interval := 1%float;
     process_cache := ∅;
     callbacks := [];
     live_threads := [];
     threads_started := 0%nat;
     trace := [] |}.

(** ** Operations *)

Definition set_trace (t : list effect) (m : ProcessMonitor) : ProcessMonitor :=
  {| monitoring := monitoring m;
     monitor_thread := monitor_thread m;
     stop_event := stop_event m;
     update_interval := update_interval m;
     process_cache := process_cache m;
     callbacks := callbacks m;
     live_threads := live_threads m;
     threads_started := threads_started m;
     trace := t |}.

Definition set_process_cache (c : gmap Z ProcessInfo) (m : ProcessMonitor)
  : ProcessMonitor :=
  {| monitoring := monitoring m;
     monitor_thread := monitor_thread m;
     stop_event := stop_event m;
     update_interval := update_interval m;
     process_cache := c;
     callbacks := callbacks m;
     live_threads := live_threads m;
     threads_started := threads_started m;
     trace := trace m |}.

Definition set_callbacks (cbs : list callback) (m : ProcessMonitor)
  : ProcessMonitor :=
  {| monitoring := monitoring m;
     monitor_thread := monitor_thread m;
     stop_event := stop_event m;
     update_interval := update_interval m;
     process_cache := process_cache m;
     callbacks := cbs;
     live_threads := live_threads m;
     threads_started := threads_started m;
     trace := trace m |}.

Definition set_update_interval (seconds : float) (m : ProcessMonitor)
  : ProcessMonitor :=
  {| monitoring := monitoring m;
     monitor_thread := monitor_thread m;
     stop_event := stop_event m;
     update_interval := seconds;
     process_cache := process_cache m;
     callbacks := callbacks m;
     live_threads := live_threads m;
     threads_started := threads_started m;
     trace := trace m |}.

(** Append one effect to the trace. *)
Definition emit (e : effect) (m : ProcessMonitor) : ProcessMonitor :=
  set_trace (trace m ++ [e]) m.

(** [self.logger.info(...)] and [self.logger.error(...)] *)
Definition logger_info (msg : message) : ProcessMonitor -> ProcessMonitor :=
  emit (Log INFO msg).
Definition logger_error (msg : message) : ProcessMonitor -> ProcessMonitor :=
  emit (Log ERROR msg).

(** What [time.sleep(seconds)] raises: [ValueError] for a NaN,
    [OverflowError] for a length whose nanoseconds do not fit a signed
    64-bit integer, [ValueError] for a negative length; nothing
    otherwise.  (The classes are those of CPython 3.12; at the upper
    bound itself older versions raise [ValueError].) *)
Definition time_sleep (seconds : float) : option exn :=
  if negb (PrimFloat.eqb seconds seconds) then Some (OtherError "ValueError")
  else if PrimFloat.leb 9223372036854775808%float
            (seconds * 1000000000)%float
          || PrimFloat.ltb (seconds * 1000000000)%float
               (-9223372036854775808)%float
       then Some (OtherError "OverflowError")
  else if PrimFloat.ltb seconds 0%float then Some (OtherError "ValueError")
  else None.

(** [time.sleep(self.update_interval)] *)
Definition sleep (m : ProcessMonitor) : result unit * ProcessMonitor :=
  match time_sleep (update_interval m) with
  | Some e => (Raise e, m)
  | None => (Ok tt, emit (Sleep (update_interval m)) m)
  end.

Definition add_callback (cb : callback) (m : ProcessMonitor) : ProcessMonitor :=
  set_callbacks (callbacks m ++ [cb]) m.

(** [list.remove]: the first occurrence only. *)
Fixpoint list_remove_first (i : nat) (cbs : list callback) : list callback :=
  match cbs with
  | [] => []
  | cb :: rest =>
      if Nat.eqb (cb_id cb) i then rest else cb :: list_remove_first i rest
  end.

Definition remove_callback (cb : callback) (m : ProcessMonitor) : ProcessMonitor :=
  if existsb (fun c => Nat.eqb (cb_id c) (cb_id cb)) (callbacks m)
  then set_callbacks (list_remove_first (cb_id cb) (callbacks m)) m
  else m.

(** The [ProcessInfo(...)] call in the body of [get_processes]'s loop. *)
Definition new_ProcessInfo (info : proc_info) : ProcessInfo :=
  {| pid := info_pid info;
     name := or_str (info_name info) "Unknown";
     cpu_percent := or_float (info_cpu_percent info) 0%float;
     memory_percent := or_float (info_memory_percent info) 0%float;
     status := or_str (info_status info) "unknown";
     create_time := or_float (info_create_time info) 0%float;
     cmdline := or_list (info_cmdline info) [] |}.

(** [except (psutil.NoSuchProcess, psutil.AccessDenied, psutil.ZombieProcess)] *)
Definition is_enumeration_gap (e : exn) : bool :=
  match e with
  | NoSuchProcess | AccessDenied | ZombieProcess => true
  | _ => false
  end.

(** The [for] loop of [get_processes], [processes] being the list built so
    far. *)
Fixpoint get_processes_loop (items : enumeration) (processes : snapshot)
  : result snapshot :=
  match items with
  | [] => Ok processes
  | Ok info :: rest =>
      get_processes_loop rest (processes ++ [new_ProcessInfo info])
  | Raise e :: rest =>
      if is_enumeration_gap e then get_processes_loop rest processes
      else Raise e
  end.

Definition get_processes (host : enumeration) : result snapshot :=
  get_processes_loop host [].

(** [except (psutil.NoSuchProcess, psutil.AccessDenied, psutil.TimeoutExpired)] *)
Definition is_kill_failure (e : exn) : bool :=
  match e with
  | NoSuchProcess | ZombieProcess | AccessDenied | TimeoutExpired => true
  | _ => false
  end.

(** The [try] block of [kill_process] up to the f-string of its log line;
    its value is the process name that line needs. *)
Definition kill_process_try (host : kill_host) (p : Z) : result string :=
  match host_Process host p with
  | Some e => Raise e
  | None =>
      match host_terminate host p with
      | Some e => Raise e
      | None =>
          match host_wait host p 5 with
          | Some e => Raise e
          | None => host_name host p
          end
      end
  end.

Definition kill_process (host : kill_host) (p : Z) (m : ProcessMonitor)
  : result bool * ProcessMonitor :=
  match kill_process_try host p with
  | Ok nm => (Ok true, logger_info (MsgKilled p nm) m)
  | Raise e =>
      if is_kill_failure e
      then (Ok false, logger_error (MsgKillFailed p e) m)
      else (Raise e, m)
  end.

(** [start_monitoring]: the new thread gets the next free thread number. *)
Definition start_monitoring (m : ProcessMonitor) : ProcessMonitor :=
  if monitoring m then m
  else
    let tid := threads_started m in
    logger_info MsgMonitoringStarted
      {| monitoring := true;
         monitor_thread := Some tid;
         stop_event := false;
         update_interval := update_interval m;
         process_cache := process_cache m;
         callbacks := callbacks m;
         live_threads := live_threads m ++ [tid];
         threads_started := S tid;
         trace := trace m ++ [ThreadStart tid] |}.

(** [stop_monitoring]; [joined] tells whether [join(timeout=2)] saw the
    polling thread finish within the two seconds. *)
Definition stop_monitoring (joined : bool) (m : ProcessMonitor) : ProcessMonitor :=
  if negb (monitoring m) then m
  else
    logger_info MsgMonitoringStopped
      match monitor_thread m with
      | Some tid =>
          {| monitoring := false;
             monitor_thread := monitor_thread m;
             stop_event := true;
             update_interval := update_interval m;
             process_cache := process_cache m;
             callbacks := callbacks m;
             live_threads :=
               if joined
               then filter (fun t => t ≠ tid) (live_threads m)
               else live_threads m;
             threads_started := threads_started m;
             trace := trace m ++ [ThreadJoin tid 2] |}
      | None =>
          {| monitoring := false;
             monitor_thread := None;
             stop_event := true;
             update_interval := update_interval m;
             process_cache := process_cache m;
             callbacks := callbacks m;
             live_threads := live_threads m;
             threads_started := threads_started m;
             trace := trace m |}
      end.

(** [{p.pid: p for p in current_processes}]: a later record replaces an
    earlier one with the same pid. *)
Definition dict_by_pid (current_processes : snapshot) : gmap Z ProcessInfo :=
  fold_left (fun d p => <[pid p := p]> d) current_processes ∅.

(** One of the two [for pid in ...: proc = d[pid]; self.logger.info(...)]
    loops of [_detect_changes].  A pid missing from [d] is Python's
    [KeyError]. *)
Fixpoint log_changes (mk : string -> Z -> message) (d : gmap Z ProcessInfo)
    (pids : list Z) (m : ProcessMonitor) : result unit * ProcessMonitor :=
  match pids with
  | [] => (Ok tt, m)
  | i :: rest =>
      match d !! i with
      | Some proc =>
          log_changes mk d rest (logger_info (mk (name proc) (pid proc)) m)
      | None => (Raise (OtherError "KeyError"), m)
      end
  end.

(** [_detect_changes].  Python iterates a [set] in an order it does not
    specify; the model takes the order of [elements]. *)
Definition _detect_changes (current_processes : snapshot) (m : ProcessMonitor)
  : result unit * ProcessMonitor :=
  let current_pids := dict_by_pid current_processes in
  let cached_pids : gset Z := dom (process_cache m) in
  let new_pids := dom current_pids ∖ cached_pids in
  match log_changes MsgNewProcess current_pids (elements new_pids) m with
  | (Raise e, m1) => (Raise e, m1)
  | (Ok _, m1) =>
      let dead_pids := cached_pids ∖ dom current_pids in
      match log_changes MsgProcessTerminated (process_cache m1)
              (elements dead_pids) m1 with
      | (Raise e, m2) => (Raise e, m2)
      | (Ok _, m2) => (Ok tt, set_process_cache current_pids m2)
      end
  end.

(** The [for callback in self.callbacks] loop of [_monitor_loop];
    [except Exception] catches whatever a callback raises. *)
Fixpoint notify_callbacks (cbs : list callback) (processes : snapshot)
    (m : ProcessMonitor) : ProcessMonitor :=
  match cbs with
  | [] => m
  | cb :: rest =>
      let m1 := emit (Call (cb_id cb) processes) m in
      match cb_run cb processes with
      | None => notify_callbacks rest processes m1
      | Some e =>
          notify_callbacks rest processes (logger_error (MsgCallbackError e) m1)
      end
  end.

(** The outer [try] block of the loop body. *)
Definition cycle_try (host : enumeration) (m : ProcessMonitor)
  : result unit * ProcessMonitor :=
  match get_processes host with
  | Raise e => (Raise e, m)
  | Ok processes =>
      match _detect_changes processes m with
      | (Raise e, m1) => (Raise e, m1)
      | (Ok _, m1) => sleep (notify_callbacks (callbacks m1) processes m1)
      end
  end.

(** One iteration of the [while] loop: the [try] block and its
    [except Exception] handler.  The handler's own [time.sleep] is in no
    [try]: what it raises leaves the loop. *)
Definition loop_body (host : enumeration) (m : ProcessMonitor)
  : result unit * ProcessMonitor :=
  match cycle_try host m with
  | (Ok _, m1) => (Ok tt, m1)
  | (Raise e, m1) => sleep (logger_error (MsgMonitorLoopError e) m1)
  end.

(** The monitor after one iteration. *)
Definition cycle (host : enumeration) (m : ProcessMonitor) : ProcessMonitor :=
  snd (loop_body host m).

(** What the polling thread meets at the head of one iteration: whether it
    reads [stop_event] as set, and the host it would enumerate. *)
Record tick : Type := mkTick
  { tick_stop : bool;
    tick_host : enumeration }.

(** [_monitor_loop] along a finite schedule.  [Ok true]: the loop has
    returned; [Ok false]: it is still running when the schedule ends;
    [Raise e]: the exception [e] has left the loop, which ends the
    polling thread. *)
Fixpoint _monitor_loop (schedule : list tick) (m : ProcessMonitor)
  : result bool * ProcessMonitor :=
  match schedule with
  | [] => (Ok false, m)
  | t :: rest =>
      if tick_stop t then (Ok true, m)
      else match loop_body (tick_host t) m with
           | (Ok _, m1) => _monitor_loop rest m1
           | (Raise e, m1) => (Raise e, m1)
           end
  end.

(** What [save_snapshot] gets from outside: the host to enumerate,
    [datetime.now().isoformat()], what [open(filename, 'w')] raises, and
    what [json.dump] raises while it writes to the opened file (a write
    error of the disk, a name that cannot be encoded in UTF-8). *)
Record save_host : Type := mkSaveHost
  { save_enumeration : enumeration;
    save_now : string;
    save_open : option exn;
    save_write : option exn }.

(** What a path holds: the text of a document written in full, or, when
    the writing broke off, some proper beginning of that text (which
    may be empty). *)
Inductive file : Type :=
| Whole (doc : json)
| Torn (doc : json).

(** The file system. *)
Abbreviation files := (gmap string file).

Definition save_snapshot (host : save_host) (filename : string)
    (m : ProcessMonitor) (fs : files) : result unit * ProcessMonitor * files :=
  match get_processes (save_enumeration host) with
  | Raise e => (Raise e, m, fs)
  | Ok processes =>
      let data :=
        JDict [ ("timestamp", JStr (save_now host));
                ("processes", JList (to_dict <$> processes)) ] in
      match save_open host with
      | Some e => (Raise e, m, fs)
      | None =>
          (* the file is open: whatever it held is gone *)
          match save_write host with
          | Some e => (Raise e, m, <[filename := Torn data]> fs)
          | None =>
              (Ok tt, logger_info (MsgSnapshotSaved filename) m,
               <[filename := Whole data]> fs)
          end
      end
  end.

(** ** Vocabulary of the properties *)

(** The [proc.info] dictionaries that could be read, in host order. *)
Definition infos_read (host : enumeration) : list proc_info :=
  omap (fun it => match it with Ok info => Some info | Raise _ => None end) host.

(** Every process of the enumeration either gave its attributes or failed
    with one of the three psutil errors that [get_processes] expects. *)
Definition only_gaps (host : enumeration) : Prop :=
  Forall (fun it => match it with
                    | Ok _ => True
                    | Raise e => is_enumeration_gap e = true
                    end) host.

(** A process whose every attribute the host reports. *)
Definition info_of (p : Z) (nm : string) : proc_info :=
  mkInfo p (Some nm) (Some 1.5%float) (Some 0.25%float) (Some "running")
    (Some 1700000000%float) (Some [nm]).

(** A host on which no process can be signalled, answering as psutil does:
    [psutil.Process(pid)] raises [ValueError] for a negative pid and
    [NoSuchProcess] for any other. *)
Definition empty_host : kill_host :=
  {| host_Process := fun p =>
       if (p <? 0)%Z then Some (OtherError "ValueError") else Some NoSuchProcess;
     host_terminate := fun _ => Some NoSuchProcess;
     host_wait := fun _ _ => Some NoSuchProcess;
     host_name := fun _ => Raise NoSuchProcess |}.

(** A host on which every process exits when asked to and still reports a
    name afterwards. *)
Definition obedient_host : kill_host :=
  {| host_Process := fun _ => None;
     host_terminate := fun _ => None;
     host_wait := fun _ _ => None;
     host_name := fun _ => Ok "sleep" |}.

(** [kill_process] returns a boolean to its caller, that is, raises
    nothing. *)
Definition returns_bool (host : kill_host) (p : Z) (m : ProcessMonitor) : Prop :=
  exists (b : bool) (m' : ProcessMonitor), kill_process host p m = (Ok b, m').

(** The shape of one entry of the [processes] array of a persisted
    snapshot, [key] being the name of the field that holds the process
    identifier: seven fields in this order, an integer, a string, two
    floats, a string, a float, an array of strings. *)
Definition is_process_entry (key : string) (j : json) : Prop :=
  exists (i : Z) (nm st : string) (c me t : float) (cl : list string),
    j = JDict [ (key, JInt i); ("name", JStr nm); ("cpu_percent", JFloat c);
                ("memory_percent", JFloat me); ("status", JStr st);
                ("create_time", JFloat t); ("cmdline", JList (JStr <$> cl)) ].

(** The shape of a persisted snapshot: two top-level fields, a
    [timestamp] string and a [processes] array of entries. *)
Definition is_snapshot_document (key : string) (doc : json) : Prop :=
  exists (ts : string) (entries : list json),
    doc = JDict [ ("timestamp", JStr ts); ("processes", JList entries) ]
    /\ Forall (is_process_entry key) entries.

(** The document that [save_snapshot] builds from a snapshot. *)
Definition snapshot_document (now : string) (processes : snapshot) : json :=
  JDict [ ("timestamp", JStr now); ("processes", JList (to_dict <$> processes)) ].

(** A host with two readable processes and one that vanished, at a time
    when the file can be opened. *)
Definition sample_save_host : save_host :=
  {| save_enumeration :=
       [Ok (info_of 1 "init"); Raise NoSuchProcess; Ok (info_of 7 "sshd")];
     save_now := "2024-05-01T12:00:00.000000";
     save_open := None;
     save_write := None |}.





(** The identifiers of a snapshot. *)
Definition ids (current_processes : snapshot) : gset Z :=
  list_to_set (pid <$> current_processes).

(** The "appeared" events of a stretch of the trace, as (id, name). *)
Definition appeared (es : list effect) : list (Z * string) :=
  omap (fun e => match e with
                 | Log INFO (MsgNewProcess nm p) => Some (p, nm)
                 | _ => None
                 end) es.

(** The "disappeared" events of a stretch of the trace, as (id, name). *)
Definition disappeared (es : list effect) : list (Z * string) :=
  omap (fun e => match e with
                 | Log INFO (MsgProcessTerminated nm p) => Some (p, nm)
                 | _ => None
                 end) es.

(** Every record of the cache is filed under its own pid, as in a
    dictionary built by [dict_by_pid]. *)
Definition cache_ok (cache : gmap Z ProcessInfo) : Prop :=
  forall (i : Z) (r : ProcessInfo), cache !! i = Some r -> pid r = i.

(** The log lines that one loop of [_detect_changes] writes for [pids]. *)
Definition change_lines (mk : string -> Z -> message) (d : gmap Z ProcessInfo)
    (pids : list Z) : list effect :=
  omap (fun i => (fun proc => Log INFO (mk (name proc) (pid proc))) <$> d !! i)
       pids.

(** The records A, B and C of the diff example, and a monitor whose cache
    is {1: A, 2: B}. *)
Definition rec_A : ProcessInfo := new_ProcessInfo (info_of 1 "init").
Definition rec_B : ProcessInfo := new_ProcessInfo (info_of 2 "sshd").
Definition rec_C : ProcessInfo := new_ProcessInfo (info_of 3 "cron").
Definition monitor_AB : ProcessMonitor :=
  set_process_cache (dict_by_pid [rec_A; rec_B]) init.

(** The (id, name) pairs that [change_lines] prints for [pids]. *)
Definition printed_pairs (d : gmap Z ProcessInfo) (pids : list Z)
  : list (Z * string) :=
  omap (fun i => (fun proc => (pid proc, name proc)) <$> d !! i) pids.

(** The lines that [_detect_changes] writes for a snapshot and a cache. *)
Definition diff_lines (current_processes : snapshot) (cache : gmap Z ProcessInfo)
  : list effect :=
  change_lines MsgNewProcess (dict_by_pid current_processes)
    (elements (dom (dict_by_pid current_processes) ∖ dom cache))
  ++ change_lines MsgProcessTerminated cache
       (elements (dom cache ∖ dom (dict_by_pid current_processes))).

(** What dispatching a snapshot to a list of callbacks adds to the trace:
    for each callback its invocation, followed by the error line when it
    raised. *)
Definition notify_effects (cbs : list callback) (processes : snapshot)
  : list effect :=
  flat_map (fun cb =>
              Call (cb_id cb) processes
              :: match cb_run cb processes with
                 | Some e => [Log ERROR (MsgCallbackError e)]
                 | None => []
                 end) cbs.

(** What one cycle adds to the trace.  When [time.sleep] refuses the
    interval, the cycle that got as far as its sleep logs that error
    instead of sleeping, and the handler does not sleep either. *)
Definition cycle_effects (host : enumeration) (m : ProcessMonitor) : list effect :=
  match get_processes host with
  | Ok processes =>
      diff_lines processes (process_cache m)
      ++ notify_effects (callbacks m) processes
      ++ match time_sleep (update_interval m) with
         | None => [Sleep (update_interval m)]
         | Some e => [Log ERROR (MsgMonitorLoopError e)]
         end
  | Raise e =>
      Log ERROR (MsgMonitorLoopError e)
      :: match time_sleep (update_interval m) with
         | None => [Sleep (update_interval m)]
         | Some _ => []
         end
  end.

(** The invocations of a stretch of the trace, in order. *)
Definition calls (es : list effect) : list (nat * snapshot) :=
  omap (fun e => match e with Call cb arg => Some (cb, arg) | _ => None end) es.

(** The exceptions of the "Callback error" lines of a stretch of the
    trace, in order. *)
Definition callback_errors (es : list effect) : list exn :=
  omap (fun e => match e with
                 | Log ERROR (MsgCallbackError x) => Some x
                 | _ => None
                 end) es.

(** How many times the callback [i] was invoked. *)
Definition count_calls (i : nat) (es : list effect) : nat :=
  length (List.filter (fun e => match e with
                                | Call cb _ => Nat.eqb cb i
                                | _ => false
                                end) es).

(** How many times the loop slept. *)
Definition count_sleeps (es : list effect) : nat :=
  length (List.filter (fun e => match e with Sleep _ => true | _ => false end) es).

(** The "Monitor loop error" lines of a stretch of the trace. *)
Definition loop_errors (es : list effect) : list exn :=
  omap (fun e => match e with
                 | Log ERROR (MsgMonitorLoopError x) => Some x
                 | _ => None
                 end) es.

(** Successive [add_callback] calls. *)
Definition register (cbs : list callback) (m : ProcessMonitor) : ProcessMonitor :=
  fold_left (fun m cb => add_callback cb m) cbs m.

(** Successive cycles, one per host state. *)
Definition run_cycles (hosts : list enumeration) (m : ProcessMonitor)
  : ProcessMonitor :=
  fold_left (fun m host => cycle host m) hosts m.

(** The enumeration of this host state does not raise. *)
Definition enumerates (host : enumeration) : Prop :=
  exists processes : snapshot, get_processes host = Ok processes.

(** A callback that always raises and one that never does. *)
Definition failing_callback : callback :=
  mkCallback 0 (fun _ => Some (OtherError "RuntimeError")).
Definition succeeding_callback : callback :=
  mkCallback 1 (fun _ => None).

(** Five runs of the enumeration loop that end normally, two of them with
    a step at which the [try] block raises an error of its [except]
    clause. *)
Definition five_hosts : list enumeration :=
  [ [Ok (info_of 1 "init")];
    [Ok (info_of 1 "init"); Ok (info_of 7 "sshd")];
    [Ok (info_of 1 "init"); Raise NoSuchProcess];
    [];
    [Ok (info_of 7 "sshd"); Raise AccessDenied] ].

(** A host state whose enumeration fails with an error that
    [get_processes] does not expect. *)
Definition broken_host : enumeration :=
  [Ok (info_of 1 "init"); Raise (OtherError "OSError")].

(** The errors of the enumerations that raise, in order. *)
Definition enumeration_errors (hosts : list enumeration) : list exn :=
  omap (fun host => match get_processes host with
                    | Raise e => Some e
                    | Ok _ => None
                    end) hosts.

(** ** Strings, as [get_process_by_name] and the window use them *)

Module PyStr.

(** [c.lower()] for a character below U+0100, which is how an [ascii] is
    read here: the upper-case letters are A to Z and U+00C0 to U+00DE
    without the multiplication sign U+00D7, each 32 below its lower-case
    form. *)
Definition lower_char (c : ascii) : ascii :=
  let n := nat_of_ascii c in
  if (Nat.leb 65 n && Nat.leb n 90)
     || (Nat.leb 192 n && Nat.leb n 222 && negb (Nat.eqb n 215))
  then ascii_of_nat (n + 32)
  else c.

(** [s.lower()] *)
Fixpoint lower (s : string) : string :=
  match s with
  | EmptyString => EmptyString
  | String c rest => String (lower_char c) (lower rest)
  end.

(** [sub in s]: [sub] occurs in [s], at the front or further on. *)
Fixpoint contains (sub s : string) : bool :=
  if String.prefix sub s then true
  else match s with
       | EmptyString => false
       | String _ rest => contains sub rest
       end.

(** [str(n)] for an integer: decimal digits, a minus sign when negative. *)
Definition str (n : Z) : string := NilZero.string_of_int (Z.to_int n).

End PyStr.
Import PyStr.

(** [get_process_by_name] *)
Definition get_process_by_name (host : enumeration) (name_ : string)
  : result snapshot :=
  match get_processes host with
  | Raise e => Raise e
  | Ok processes =>
      Ok (List.filter (fun p => contains (lower name_) (lower (name p)))
            processes)
  end.

(** [_setup_logger].  The logger named 'ProcessSpy' is one per
    interpreter; [handlers] are the files its handlers write to, and
    [open_error] is what opening [log_file] for a new handler would
    raise. *)
Definition _setup_logger (open_error : option exn) (log_file : string)
    (handlers : list string) : result (list string) :=
  match handlers with
  | [] =>
      match open_error with
      | Some e => Raise e
      | None => Ok [log_file]
      end
  | _ :: _ => Ok handlers
  end.

(** The loggers set up by constructing one monitor per log file, in
    order, every file being openable. *)
Definition setup_loggers (log_files : list string) (handlers : list string)
  : list string :=
  fold_left (fun hs f => match _setup_logger None f hs with
                         | Ok hs' => hs'
                         | Raise _ => hs
                         end) log_files handlers.

(** How many times the callback [i] is registered. *)
Definition count_registered (i : nat) (cbs : list callback) : nat :=
  length (List.filter (fun cb => Nat.eqb (cb_id cb) i) cbs).

(** [m'] differs from [m] in its trace at most. *)
Definition same_but_trace (m m' : ProcessMonitor) : Prop :=
  monitoring m' = monitoring m
  /\ monitor_thread m' = monitor_thread m
  /\ stop_event m' = stop_event m
  /\ update_interval m' = update_interval m
  /\ process_cache m' = process_cache m
  /\ callbacks m' = callbacks m
  /\ live_threads m' = live_threads m
  /\ threads_started m' = threads_started m.

(** The snapshot of the last of [hosts] that could be enumerated, [acc]
    when there is none. *)
Definition last_snapshot_from (acc : option snapshot) (hosts : list enumeration)
  : option snapshot :=
  fold_left (fun acc host => match get_processes host with
                             | Ok processes => Some processes
                             | Raise _ => acc
                             end) hosts acc.

Definition last_snapshot (hosts : list enumeration) : option snapshot :=
  last_snapshot_from None hosts.

(** A host on which every process exits when asked to and is unknown
    afterwards. *)
Definition forgetful_host : kill_host :=
  {| host_Process := fun _ => None;
     host_terminate := fun _ => None;
     host_wait := fun _ _ => None;
     host_name := fun _ => Raise NoSuchProcess |}.

(** ** The window, [gui/main_window.py] *)

Module Gui.

Inductive color : Type := GREEN | BLUE | ORANGE | RED.

(** What the status line shows, one constructor per string or f-string
    of the source. *)
Inductive status_value : Type :=
| Ready
| DataRefreshed
| Failed (ex : exn)
| MonitoringActive
| MonitoringStopped
| UpdatedAt (clock : string)
| ProcessKilled (p : Z)
| KillFailed (p : Z)
| SnapshotSaved (filename : string)
| SaveFailed (ex : exn).

Inductive button_text : Type := StartMonitoring | StopMonitoring.
Inductive button_icon : Type := PLAY_ARROW | STOP.

Record button : Type := mkButton
  { btn_text : button_text;
    btn_icon : button_icon;
    btn_bgcolor : color }.

(** One row of the table: the texts of its cells and the pid its Kill
    button is bound to.  The two percentage cells show their float with
    one decimal. *)
Record row : Type := mkRow
  { cell_pid : string;
    cell_name : string;
    cell_cpu : float;
    cell_memory : float;
    cell_status : string;
    kill_pid : Z }.

(** [ProcessSpyApp].  [process_count_text] is the number the count label
    shows; [dialogs] are the confirmation dialogs created so far, each
    with the pid it asks about and whether it is open, and [page_dialog]
    is the one the page shows; [page_updates] counts the calls of
    [page.update()] and [ui_threads] those of [page.run_thread]. *)
Record ProcessSpyApp : Type := mkApp
  { monitor : ProcessMonitor;
    process_list : snapshot;
    filtered_processes : snapshot;
    search_term : string;
    is_monitoring : bool;
    rows : list row;
    status_text : status_value * color;
    start_stop_btn : button;
    process_count_text : nat;
    dialogs : list (Z * bool);
    page_dialog : option nat;
    page_updates : nat;
    ui_threads : nat }.

Definition set_monitor (x0 : ProcessMonitor) (a : ProcessSpyApp) : ProcessSpyApp :=
  {| monitor := x0;
     process_list := process_list a;
     filtered_processes := filtered_processes a;
     search_term := search_term a;
     is_monitoring := is_monitoring a;
     rows := rows a;
     status_text := status_text a;
     start_stop_btn := start_stop_btn a;
     process_count_text := process_count_text a;
     dialogs := dialogs a;
     page_dialog := page_dialog a;
     page_updates := page_updates a;
     ui_threads := ui_threads a |}.

Definition set_process_list (x0 : snapshot) (a : ProcessSpyApp) : ProcessSpyApp :=
  {| monitor := monitor a;
     process_list := x0;
     filtered_processes := filtered_processes a;
     search_term := search_term a;
     is_monitoring := is_monitoring a;
     rows := rows a;
     status_text := status_text a;
     start_stop_btn := start_stop_btn a;
     process_count_text := process_count_text a;
     dialogs := dialogs a;
     page_dialog := page_dialog a;
     page_updates := page_updates a;
     ui_threads := ui_threads a |}.

Definition set_filtered_processes (x0 : snapshot) (a : ProcessSpyApp) : ProcessSpyApp :=
  {| monitor := monitor a;
     process_list := process_list a;
     filtered_processes := x0;
     search_term := search_term a;
     is_monitoring := is_monitoring a;
     rows := rows a;
     status_text := status_text a;
     start_stop_btn := start_stop_btn a;
     process_count_text := process_count_text a;
     dialogs := dialogs a;
     page_dialog := page_dialog a;
     page_updates := page_updates a;
     ui_threads := ui_threads a |}.

Definition set_search_term (x0 : string) (a : ProcessSpyApp) : ProcessSpyApp :=
  {| monitor := monitor a;
     process_list := process_list a;
     filtered_processes := filtered_processes a;
     search_term := x0;
     is_monitoring := is_monitoring a;
     rows := rows a;
     status_text := status_text a;
     start_stop_btn := start_stop_btn a;
     process_count_text := process_count_text a;
     dialogs := dialogs a;
     page_dialog := page_dialog a;
     page_updates := page_updates a;
     ui_threads := ui_threads a |}.

Definition set_is_monitoring (x0 : bool) (a : ProcessSpyApp) : ProcessSpyApp :=
  {| monitor := monitor a;
     process_list := process_list a;
     filtered_processes := filtered_processes a;
     search_term := search_term a;
     is_monitoring := x0;
     rows := rows a;
     status_text := status_text a;
     start_stop_btn := start_stop_btn a;
     process_count_text := process_count_text a;
     dialogs := dialogs a;
     page_dialog := page_dialog a;
     page_updates := page_updates a;
     ui_threads := ui_threads a |}.

Definition set_table (x0 : list row) (x1 : nat) (a : ProcessSpyApp) : ProcessSpyApp :=
  {| monitor := monitor a;
     process_list := process_list a;
     filtered_processes := filtered_processes a;
     search_term := search_term a;
     is_monitoring := is_monitoring a;
     rows := x0;
     status_text := status_text a;
     start_stop_btn := start_stop_btn a;
     process_count_text := x1;
     dialogs := dialogs a;
     page_dialog := page_dialog a;
     page_updates := page_updates a;
     ui_threads := ui_threads a |}.

Definition set_status (x0 : status_value * color) (a : ProcessSpyApp) : ProcessSpyApp :=
  {| monitor := monitor a;
     process_list := process_list a;
     filtered_processes := filtered_processes a;
     search_term := search_term a;
     is_monitoring := is_monitoring a;
     rows := rows a;
     status_text := x0;
     start_stop_btn := start_stop_btn a;
     process_count_text := process_count_text a;
     dialogs := dialogs a;
     page_dialog := page_dialog a;
     page_updates := page_updates a;
     ui_threads := ui_threads a |}.

Definition set_start_stop_btn (x0 : button) (a : ProcessSpyApp) : ProcessSpyApp :=
  {| monitor := monitor a;
     process_list := process_list a;
     filtered_processes := filtered_processes a;
     search_term := search_term a;
     is_monitoring := is_monitoring a;
     rows := rows a;
     status_text := status_text a;
     start_stop_btn := x0;
     process_count_text := process_count_text a;
     dialogs := dialogs a;
     page_dialog := page_dialog a;
     page_updates := page_updates a;
     ui_threads := ui_threads a |}.

Definition set_dialogs (x0 : list (Z * bool)) (x1 : option nat) (a : ProcessSpyApp) : ProcessSpyApp :=
  {| monitor := monitor a;
     process_list := process_list a;
     filtered_processes := filtered_processes a;
     search_term := search_term a;
     is_monitoring := is_monitoring a;
     rows := rows a;
     status_text := status_text a;
     start_stop_btn := start_stop_btn a;
     process_count_text := process_count_text a;
     dialogs := x0;
     page_dialog := x1;
     page_updates := page_updates a;
     ui_threads := ui_threads a |}.

Definition set_page_updates (x0 : nat) (a : ProcessSpyApp) : ProcessSpyApp :=
  {| monitor := monitor a;
     process_list := process_list a;
     filtered_processes := filtered_processes a;
     search_term := search_term a;
     is_monitoring := is_monitoring a;
     rows := rows a;
     status_text := status_text a;
     start_stop_btn := start_stop_btn a;
     process_count_text := process_count_text a;
     dialogs := dialogs a;
     page_dialog := page_dialog a;
     page_updates := x0;
     ui_threads := ui_threads a |}.

Definition set_ui_threads (x0 : nat) (a : ProcessSpyApp) : ProcessSpyApp :=
  {| monitor := monitor a;
     process_list := process_list a;
     filtered_processes := filtered_processes a;
     search_term := search_term a;
     is_monitoring := is_monitoring a;
     rows := rows a;
     status_text := status_text a;
     start_stop_btn := start_stop_btn a;
     process_count_text := process_count_text a;
     dialogs := dialogs a;
     page_dialog := page_dialog a;
     page_updates := page_updates a;
     ui_threads := x0 |}.

(** [self.page.update()] *)
Definition page_update (a : ProcessSpyApp) : ProcessSpyApp :=
  set_page_updates (S (page_updates a)) a.

(** [name[:20] + "..." if len(name) > 20 else name] *)
Definition display_name (nm : string) : string :=
  if Nat.ltb 20 (String.length nm)
  then (String.substring 0 20 nm ++ "...")%string
  else nm.

(** The [ft.DataRow] that [update_table] builds for a process. *)
Definition row_of (process : ProcessInfo) : row :=
  {| cell_pid := str (pid process);
     cell_name := display_name (name process);
     cell_cpu := cpu_percent process;
     cell_memory := memory_percent process;
     cell_status := status process;
     kill_pid := pid process |}.

Definition update_table (a : ProcessSpyApp) : ProcessSpyApp :=
  page_update
    (set_table (row_of <$> filtered_processes a)
       (length (filtered_processes a)) a).

(** The condition of the list comprehension of [filter_processes]. *)
Definition matches (term : string) (p : ProcessInfo) : bool :=
  contains term (lower (name p))
  || contains term (str (pid p))
  || existsb (fun cmd => contains term (lower cmd)) (cmdline p).

Definition filter_processes (a : ProcessSpyApp) : ProcessSpyApp :=
  update_table
    (set_filtered_processes
       match search_term a with
       | EmptyString => process_list a
       | _ => List.filter (matches (search_term a)) (process_list a)
       end a).

(** [on_search_change], [value] being the text of the search field. *)
Definition on_search_change (value : string) (a : ProcessSpyApp) : ProcessSpyApp :=
  filter_processes (set_search_term (lower value) a).

Definition start_monitoring (a : ProcessSpyApp) : ProcessSpyApp :=
  page_update
    (set_status (MonitoringActive, BLUE)
       (set_start_stop_btn (mkButton StopMonitoring STOP RED)
          (set_monitor (start_monitoring (monitor a))
             (set_is_monitoring true a)))).

Definition stop_monitoring (joined : bool) (a : ProcessSpyApp) : ProcessSpyApp :=
  page_update
    (set_status (MonitoringStopped, ORANGE)
       (set_start_stop_btn (mkButton StartMonitoring PLAY_ARROW GREEN)
          (set_monitor (stop_monitoring joined (monitor a))
             (set_is_monitoring false a)))).

Definition toggle_monitoring (joined : bool) (a : ProcessSpyApp) : ProcessSpyApp :=
  if is_monitoring a then stop_monitoring joined a else start_monitoring a.

(** [refresh_processes]; [except Exception] catches whatever the
    enumeration raises. *)
Definition refresh_processes (host : enumeration) (a : ProcessSpyApp)
  : ProcessSpyApp :=
  match get_processes host with
  | Ok processes =>
      let a1 := filter_processes (set_process_list processes a) in
      if is_monitoring a1 then a1
      else page_update (set_status (DataRefreshed, GREEN) a1)
  | Raise ex => page_update (set_status (Failed ex, RED) a)
  end.

(** [on_processes_updated]: the status line is left to [update_ui],
    which the page runs on a thread of its own. *)
Definition on_processes_updated (processes : snapshot) (a : ProcessSpyApp)
  : ProcessSpyApp :=
  let a1 := filter_processes (set_process_list processes a) in
  set_ui_threads (S (ui_threads a1)) a1.

(** The [update_ui] closure of [on_processes_updated], run at [clock]. *)
Definition update_ui (clock : string) (a : ProcessSpyApp) : ProcessSpyApp :=
  page_update (set_status (UpdatedAt clock, BLUE) a).

(** [dialog.open = False] on the dialog number [d]. *)
Definition close_dialog (d : nat) (a : ProcessSpyApp) : ProcessSpyApp :=
  set_dialogs
    (match dialogs a !! d with
     | Some (p, _) => <[d := (p, false)]> (dialogs a)
     | None => dialogs a
     end)
    (page_dialog a) a.

(** The [confirm_kill] closure of the dialog number [d], which asks about
    [p].  The call of the monitor's [kill_process] is not in a [try]. *)
Definition confirm_kill (khost : kill_host) (host : enumeration) (d : nat) (p : Z)
    (a : ProcessSpyApp) : result unit * ProcessSpyApp :=
  match kill_process khost p (monitor a) with
  | (Raise ex, _) => (Raise ex, a)
  | (Ok killed, m) =>
      let a1 := set_monitor m a in
      let a2 :=
        if killed
        then refresh_processes host (set_status (ProcessKilled p, GREEN) a1)
        else set_status (KillFailed p, RED) a1 in
      (Ok tt, page_update (close_dialog d (page_update a2)))
  end.

(** The [cancel_kill] closure of the dialog number [d]. *)
Definition cancel_kill (d : nat) (a : ProcessSpyApp) : ProcessSpyApp :=
  page_update (close_dialog d a).

(** [kill_process]: a new dialog about [p], shown open. *)
Definition kill_process (p : Z) (a : ProcessSpyApp) : ProcessSpyApp :=
  page_update
    (set_dialogs (dialogs a ++ [(p, true)]) (Some (length (dialogs a))) a).

(** [save_snapshot]; [stamp] is [datetime.now().strftime('%Y%m%d_%H%M%S')]. *)
Definition save_snapshot (stamp : string) (host : save_host)
    (a : ProcessSpyApp) (fs : files) : ProcessSpyApp * files :=
  let filename := ("process_snapshot_" ++ stamp ++ ".json")%string in
  match save_snapshot host filename (monitor a) fs with
  | (Ok _, m, fs') =>
      (page_update (set_status (SnapshotSaved filename, GREEN) (set_monitor m a)),
       fs')
  | (Raise ex, _, fs') =>
      (page_update (set_status (SaveFailed ex, RED) a), fs')
  end.

(** The window before [create_ui] loads the processes. *)
Definition blank : ProcessSpyApp :=
  {| monitor := init;
     process_list := [];
     filtered_processes := [];
     search_term := "";
     is_monitoring := false;
     rows := [];
     status_text := (Ready, GREEN);
     start_stop_btn := mkButton StartMonitoring PLAY_ARROW GREEN;
     process_count_text := 0%nat;
     dialogs := [];
     page_dialog := None;
     page_updates := 0%nat;
     ui_threads := 0%nat |}.

(** [ProcessSpyApp.__init__]: [create_ui] ends with a first
    [refresh_processes], then [on_processes_updated] is registered with
    the monitor, [cb] being the monitor's view of it. *)
Definition new_app (host : enumeration) (cb : callback) : ProcessSpyApp :=
  let a := refresh_processes host blank in
  set_monitor (add_callback cb (monitor a)) a.

(** What the user and the monitor do to the window. *)
Inductive event : Type :=
| Search (value : string)
| Toggle (joined : bool)
| Refresh (host : enumeration)
| MonitorUpdate (processes : snapshot)
| UiUpdate (clock : string)
| KillClick (p : Z)
| KillConfirm (khost : kill_host) (host : enumeration) (d : nat) (p : Z)
| KillCancel (d : nat)
| Snapshot (stamp : string) (host : save_host) (fs : files).

Definition handle (a : ProcessSpyApp) (ev : event) : ProcessSpyApp :=
  match ev with
  | Search value => on_search_change value a
  | Toggle joined => toggle_monitoring joined a
  | Refresh host => refresh_processes host a
  | MonitorUpdate processes => on_processes_updated processes a
  | UiUpdate clock => update_ui clock a
  | KillClick p => kill_process p a
  | KillConfirm khost host d p => snd (confirm_kill khost host d p a)
  | KillCancel d => cancel_kill d a
  | Snapshot stamp host fs => fst (save_snapshot stamp host a fs)
  end.

Definition handle_all (evs : list event) (a : ProcessSpyApp) : ProcessSpyApp :=
  fold_left handle evs a.

(** The table shows the processes that match the search term: the
    filtered list is the process list under the current term, and the
    rows and the count are those of the filtered list. *)
Definition table_consistent (a : ProcessSpyApp) : Prop :=
  filtered_processes a
  = match search_term a with
    | EmptyString => process_list a
    | _ => List.filter (matches (search_term a)) (process_list a)
    end
  /\ rows a = row_of <$> filtered_processes a
  /\ process_count_text a = length (rows a).

(** The window's flag and button agree with the monitor's state. *)
Definition lifecycle_consistent (a : ProcessSpyApp) : Prop :=
  is_monitoring a = monitoring (monitor a)
  /\ btn_text (start_stop_btn a)
     = if is_monitoring a then StopMonitoring else StartMonitoring.

End Gui.

(** A new monitor whose interval has been set to minus one second. *)
Definition negative_interval_monitor : ProcessMonitor :=
  set_update_interval (-1)%float init.

(** A host on which the file opens but the writing breaks off. *)
Definition full_disk_host : save_host :=
  {| save_enumeration := [Ok (info_of 1 "init")];
     save_now := "2024-05-01T12:00:00.000000";
     save_open := None;
     save_write := Some (OtherError "OSError") |}.

(** Following the claim's words: a process that neither vanishes while
    it is queried nor denies access to an attribute. *)
Definition untroubled (hp : host_process) : bool :=
  negb (hp_vanishes hp)
  && match hp_name hp, hp_cpu_percent hp, hp_memory_percent hp,
           hp_status hp, hp_create_time hp, hp_cmdline hp with
     | Value _, Value _, Value _, Value _, Value _, Value _ => true
     | _, _, _, _, _, _ => false
     end.

(** A process of the host whose every attribute can be read. *)
Definition open_process (p : Z) (nm : string) : host_process :=
  mkHostProcess p false (Value nm) (Value 1.5%float) (Value 0.25%float)
    (Value "running") (Value 1700000000%float) (Value [nm]).

(** A host with an open process, one that vanishes while it is queried,
    and one that denies access to its name, status and command line. *)
Definition denying_table : list host_process :=
  [ open_process 1 "init";
    mkHostProcess 5 true (Value "gone") (Value 0%float) (Value 0%float)
      (Value "running") (Value 0%float) (Value []);
    mkHostProcess 7 false Refused (Value 1.5%float) (Value 0.25%float)
      Refused (Value 1700000000%float) Refused ].

(** The [info] of a process that reports an empty name, a negative zero
    as cpu usage and an empty command line. *)
Definition nameless_info : proc_info :=
  mkInfo 9 (Some "") (Some (-0)%float) (Some 0.25%float) (Some "running")
    (Some 1700000000%float) (Some []).

(** * Properties *)

(** ** Enumeration *)

Lemma get_processes_loop_app (a b : enumeration) (acc : snapshot) :
  get_processes_loop (a ++ b) acc =
  match get_processes_loop a acc with
  | Ok acc' => get_processes_loop b acc'
  | Raise e => Raise e
  end.
Proof.
  revert acc. induction a as [|[info|e] a IH]; intros acc; simpl; auto.
  destruct (is_enumeration_gap e); auto.
Qed.

Lemma get_processes_loop_Ok (host : enumeration) (acc ps : snapshot) :
  get_processes_loop host acc = Ok ps ->
  ps = acc ++ (new_ProcessInfo <$> infos_read host).
Proof.
  revert acc. induction host as [|[info|e] host IH]; intros acc; simpl.
  - intros [= <-]. now rewrite app_nil_r.
  - intros H. apply IH in H. now rewrite <- app_assoc in H.
  - destruct (is_enumeration_gap e); [apply IH | discriminate].
Qed.

Lemma get_processes_Ok (host : enumeration) (ps : snapshot) :
  get_processes host = Ok ps -> ps = new_ProcessInfo <$> infos_read host.
Proof. intros H. now apply get_processes_loop_Ok in H. Qed.

Lemma get_processes_loop_only_gaps (host : enumeration) (acc : snapshot) :
  only_gaps host ->
  get_processes_loop host acc = Ok (acc ++ (new_ProcessInfo <$> infos_read host)).
Proof.
  intros H. revert acc.
  induction H as [|[info|e] host Hit _ IH]; intros acc; simpl.
  - now rewrite app_nil_r.
  - rewrite IH. now rewrite <- app_assoc.
  - rewrite Hit. apply IH.
Qed.

(** A failure that is not one of the three expected ones leaves the loop
    at once. *)
Lemma get_processes_loop_Raise (a b : enumeration) (e : exn) (acc : snapshot) :
  only_gaps a -> is_enumeration_gap e = false ->
  get_processes_loop (a ++ Raise e :: b) acc = Raise e.
Proof.
  intros Ha He. rewrite get_processes_loop_app.
  rewrite (get_processes_loop_only_gaps a acc Ha). simpl. now rewrite He.
Qed.

Lemma infos_read_elem (host : enumeration) (info : proc_info) :
  Ok info ∈ host -> info ∈ infos_read host.
Proof.
  intros H. apply list_elem_of_omap. exists (Ok info). auto.
Qed.

(** The [except] clause of the loop body: were the reads of the [try]
    block to raise [NoSuchProcess], [ZombieProcess] or [AccessDenied]
    for some of the yielded processes and nothing else, [get_processes]
    would leave those processes out and return the records of the
    others, in order. *)
Lemma get_processes_omits_gaps (host : enumeration) :
  only_gaps host ->
  get_processes host = Ok (new_ProcessInfo <$> infos_read host)
  /\ pid <$> (new_ProcessInfo <$> infos_read host) = info_pid <$> infos_read host
  /\ (infos_read host = [] -> get_processes host = Ok []).
Proof.
  intros H. unfold get_processes.
  rewrite (get_processes_loop_only_gaps host [] H). simpl.
  split; [reflexivity|]. split.
  - rewrite <- list_fmap_compose. reflexivity.
  - intros ->. reflexivity.
Qed.

Lemma process_iter_infos (table : list host_process) :
  only_gaps (process_iter table)
  /\ infos_read (process_iter table)
     = as_dict <$> List.filter (fun hp => negb (hp_vanishes hp)) table.
Proof.
  unfold process_iter, only_gaps, infos_read.
  induction (List.filter (fun hp => negb (hp_vanishes hp)) table)
    as [|hp l (IH1 & IH2)]; [split; [constructor|reflexivity]|].
  split.
  - rewrite fmap_cons. apply Forall_cons. split; [exact I|exact IH1].
  - rewrite !fmap_cons. change (omap ?f (Ok ?x :: ?r)) with (x :: omap f r).
    now rewrite IH2.
Qed.

(** C4, as the code has it: on every host, whatever processes vanish
    while they are queried and whatever attributes are refused,
    [get_processes] does not raise; it leaves out exactly the processes
    that vanished and returns one record, in host order, for each of the
    others.  A process that denied access to attributes is not left out:
    its record carries the defaults for the refused attributes.  The
    result is the empty snapshot when every process vanished; the
    function has no access to the log, so all this is silent. *)
Theorem get_processes_omits_vanished (table : list host_process) :
  get_processes (process_iter table)
  = Ok (new_ProcessInfo
        <$> (as_dict <$> List.filter (fun hp => negb (hp_vanishes hp)) table))
  /\ pid <$> (new_ProcessInfo
              <$> (as_dict
                   <$> List.filter (fun hp => negb (hp_vanishes hp)) table))
     = hp_pid <$> List.filter (fun hp => negb (hp_vanishes hp)) table
  /\ (forall hp, hp ∈ table -> hp_vanishes hp = false ->
      exists r, r ∈ new_ProcessInfo
                    <$> (as_dict
                         <$> List.filter (fun hp => negb (hp_vanishes hp)) table)
                /\ pid r = hp_pid hp
                /\ (hp_name hp = Refused -> name r = "Unknown")
                /\ (hp_status hp = Refused -> status r = "unknown")
                /\ (hp_cmdline hp = Refused -> cmdline r = [])
                /\ (hp_cpu_percent hp = Refused -> cpu_percent r = 0%float)
                /\ (hp_memory_percent hp = Refused ->
                    memory_percent r = 0%float)
                /\ (hp_create_time hp = Refused -> create_time r = 0%float))
  /\ (forall r, r ∈ new_ProcessInfo
                    <$> (as_dict
                         <$> List.filter (fun hp => negb (hp_vanishes hp)) table) ->
      exists hp, hp ∈ table /\ hp_vanishes hp = false /\ pid r = hp_pid hp)
  /\ (Forall (fun hp => hp_vanishes hp = true) table ->
      get_processes (process_iter table) = Ok []).
Proof.
  destruct (process_iter_infos table) as (Hg & Hi).
  assert (Hget : get_processes (process_iter table)
                 = Ok (new_ProcessInfo
                       <$> (as_dict
                            <$> List.filter (fun hp => negb (hp_vanishes hp))
                                  table))).
  { unfold get_processes.
    rewrite (get_processes_loop_only_gaps _ [] Hg), Hi. reflexivity. }
  split; [exact Hget|]. split.
  { rewrite <- !list_fmap_compose. reflexivity. }
  split.
  { intros hp Hin Hv. exists (new_ProcessInfo (as_dict hp)). split.
    - apply list_elem_of_fmap_2, list_elem_of_fmap_2.
      apply list_elem_of_In, List.filter_In.
      split; [now apply list_elem_of_In|now rewrite Hv].
    - split; [reflexivity|].
      unfold new_ProcessInfo, as_dict; simpl.
      repeat split; intros ->; reflexivity. }
  split.
  { intros r Hr.
    apply list_elem_of_fmap in Hr as (i & -> & Hr).
    apply list_elem_of_fmap in Hr as (hp & -> & Hr).
    apply list_elem_of_In, List.filter_In in Hr as (Hin & Hv).
    exists hp. split; [now apply list_elem_of_In|].
    split; [now destruct (hp_vanishes hp)|reflexivity]. }
  intros Hall. rewrite Hget.
  replace (List.filter (fun hp => negb (hp_vanishes hp)) table) with
    (@nil host_process); [reflexivity|].
  clear Hg Hi Hget.
  induction Hall as [|hp l Hv _ IH]; [reflexivity|].
  simpl. rewrite Hv. exact IH.
Qed.

(** C4, as the claim states it, fails: the process 7, which denies access
    to its name, status and command line, is not left out of the
    snapshot; only the process 5, which vanishes, is. *)
Lemma get_processes_keeps_denied :
  get_processes (process_iter denying_table)
  = Ok [new_ProcessInfo (info_of 1 "init");
        mkProcessInfo 7 "Unknown" 1.5 0.25 "unknown" 1700000000 []]
  /\ hp_pid <$> List.filter untroubled denying_table = [1]
  /\ get_processes (process_iter denying_table)
     <> Ok (new_ProcessInfo
            <$> (as_dict <$> List.filter untroubled denying_table)).
Proof.
  split; [reflexivity|]. split; [reflexivity|]. discriminate.
Qed.

(** ** Defaulting *)

Lemma get_processes_record (host : enumeration) (ps : snapshot) (info : proc_info) :
  get_processes host = Ok ps -> Ok info ∈ host -> new_ProcessInfo info ∈ ps.
Proof.
  intros H Hin. apply get_processes_Ok in H as ->.
  apply list_elem_of_fmap. exists info. split; [reflexivity|].
  now apply infos_read_elem.
Qed.

(** C9: the record that [get_processes] returns for an enumerated process
    carries the process's pid and, for each attribute that the host left
    unavailable ([None]), the default: name "Unknown", status "unknown",
    empty command line, and 0.0 for cpu usage, memory usage and creation
    time. *)
Theorem get_processes_defaults
    (host : enumeration) (ps : snapshot) (info : proc_info) :
  get_processes host = Ok ps ->
  Ok info ∈ host ->
  exists r : ProcessInfo,
    r ∈ ps /\ pid r = info_pid info
    /\ (info_name info = None -> name r = "Unknown")
    /\ (info_status info = None -> status r = "unknown")
    /\ (info_cmdline info = None -> cmdline r = [])
    /\ (info_cpu_percent info = None -> cpu_percent r = 0%float)
    /\ (info_memory_percent info = None -> memory_percent r = 0%float)
    /\ (info_create_time info = None -> create_time r = 0%float).
Proof.
  intros H Hin. exists (new_ProcessInfo info).
  split; [exact (get_processes_record host ps info H Hin)|].
  unfold new_ProcessInfo; simpl.
  repeat split; intros ->; reflexivity.
Qed.

Lemma get_processes_defaults_witness :
  exists r : ProcessInfo,
    r ∈ [mkProcessInfo 42 "Unknown" 0 0 "unknown" 0 []] /\ pid r = 42
    /\ (@None string = None -> name r = "Unknown")
    /\ (@None string = None -> status r = "unknown")
    /\ (@None (list string) = None -> cmdline r = [])
    /\ (@None float = None -> cpu_percent r = 0%float)
    /\ (@None float = None -> memory_percent r = 0%float)
    /\ (@None float = None -> create_time r = 0%float).
Proof.
  apply (get_processes_defaults
           [Raise AccessDenied; Ok (mkInfo 42 None None None None None None)]
           [mkProcessInfo 42 "Unknown" 0 0 "unknown" 0 []]
           (mkInfo 42 None None None None None None)).
  - reflexivity.
  - right. left.
Defined.

(** C10: the defaults are substituted by truthiness, not by absence.  The
    record that [get_processes] returns for an enumerated process keeps
    each attribute that the host reports with a truthy value, and takes
    the default for each one reported as falsy just as for an
    unavailable one: the empty name gives "Unknown", the empty status
    "unknown", the empty command line the empty list, a zero of either
    sign 0.0.  In particular a process whose name is the empty string is
    returned with the name "Unknown", and the enumeration yields the
    same snapshot as if that name were unavailable. *)
Theorem defaulting_by_truthiness
    (host : enumeration) (ps : snapshot) (info : proc_info)
    (pre post : enumeration) (p : Z) (st : option string)
    (c me t : option float) (cl : option (list string)) :
  get_processes host = Ok ps ->
  Ok info ∈ host ->
  (exists r : ProcessInfo,
     r ∈ ps /\ pid r = info_pid info
     /\ (info_name info = Some "" -> name r = "Unknown")
     /\ (forall s, info_name info = Some s -> s <> "" -> name r = s)
     /\ (info_status info = Some "" -> status r = "unknown")
     /\ (forall s, info_status info = Some s -> s <> "" -> status r = s)
     /\ (info_cmdline info = Some [] -> cmdline r = [])
     /\ (forall l, info_cmdline info = Some l -> l <> [] -> cmdline r = l)
     /\ (forall f, info_cpu_percent info = Some f ->
         cpu_percent r = if PrimFloat.eqb f 0%float then 0%float else f)
     /\ (forall f, info_memory_percent info = Some f ->
         memory_percent r = if PrimFloat.eqb f 0%float then 0%float else f)
     /\ (forall f, info_create_time info = Some f ->
         create_time r = if PrimFloat.eqb f 0%float then 0%float else f))
  /\ get_processes [Ok (mkInfo p (Some "") c me st t cl)]
     = Ok [new_ProcessInfo (mkInfo p None c me st t cl)]
  /\ name (new_ProcessInfo (mkInfo p None c me st t cl)) = "Unknown"
  /\ get_processes (pre ++ Ok (mkInfo p (Some "") c me st t cl) :: post)
     = get_processes (pre ++ Ok (mkInfo p None c me st t cl) :: post)
  /\ PrimFloat.eqb (-0)%float 0%float = true.
Proof.
  intros H Hin. split.
  { exists (new_ProcessInfo info).
    split; [exact (get_processes_record host ps info H Hin)|].
    split; [reflexivity|].
    unfold new_ProcessInfo; simpl.
    split; [now intros ->|].
    split; [intros s -> Hs; now destruct s|].
    split; [now intros ->|].
    split; [intros s -> Hs; now destruct s|].
    split; [now intros ->|].
    split; [intros l -> Hl; now destruct l|].
    repeat split; intros f ->; reflexivity. }
  split; [reflexivity|]. split; [reflexivity|]. split; [|reflexivity].
  unfold get_processes. rewrite !get_processes_loop_app.
  destruct (get_processes_loop pre []); reflexivity.
Qed.

Lemma defaulting_by_truthiness_witness :
  exists r : ProcessInfo,
    r ∈ [mkProcessInfo 9 "Unknown" 0 0.25 "running" 1700000000 []]
    /\ pid r = 9 /\ name r = "Unknown" /\ status r = "running"
    /\ cmdline r = [] /\ cpu_percent r = 0%float
    /\ memory_percent r = 0.25%float.
Proof.
  destruct (defaulting_by_truthiness
              [Raise AccessDenied; Ok nameless_info]
              [mkProcessInfo 9 "Unknown" 0 0.25 "running" 1700000000 []]
              nameless_info [] [] 9 None None None None None)
    as ((r & Hr & Hp & Hn & _ & _ & Hs & Hc & _ & Hcpu & Hmem & _) & _).
  - reflexivity.
  - right. left.
  - exists r. split; [exact Hr|]. split; [exact Hp|].
    split; [apply Hn; reflexivity|].
    split; [apply (Hs "running"); [reflexivity|discriminate]|].
    split; [apply Hc; reflexivity|].
    split; [exact (Hcpu (-0)%float eq_refl)|exact (Hmem 0.25%float eq_refl)].
Defined.

(** ** Termination of a process *)

Lemma kill_process_true (host : kill_host) (p : Z) (m m' : ProcessMonitor) :
  kill_process host p m = (Ok true, m') ->
  host_Process host p = None /\ host_terminate host p = None
  /\ host_wait host p 5 = None.
Proof.
  unfold kill_process, kill_process_try.
  destruct (host_Process host p) as [e|].
  { destruct (is_kill_failure e); discriminate. }
  destruct (host_terminate host p) as [e|].
  { destruct (is_kill_failure e); discriminate. }
  destruct (host_wait host p 5) as [e|].
  { destruct (is_kill_failure e); discriminate. }
  auto.
Qed.

Lemma kill_process_failure (host : kill_host) (p : Z) (m : ProcessMonitor) (e : exn) :
  kill_process_try host p = Raise e -> is_kill_failure e = true ->
  kill_process host p m = (Ok false, logger_error (MsgKillFailed p e) m).
Proof. intros Ht He. unfold kill_process. now rewrite Ht, He. Qed.

Lemma kill_process_raises (host : kill_host) (p : Z) (m m' : ProcessMonitor) (e : exn) :
  kill_process host p m = (Raise e, m') ->
  is_kill_failure e = false /\ kill_process_try host p = Raise e /\ m' = m.
Proof.
  unfold kill_process. destruct (kill_process_try host p) as [nm|e']; [discriminate|].
  destruct (is_kill_failure e') eqn:He; [discriminate|].
  intros [= <- <-]. auto.
Qed.

(** The log line of a successful termination asks the process, which has
    just exited, for its name; when the host answers [NoSuchProcess] the
    call reports a failure although the process is gone. *)
Lemma kill_process_name_of_exited (host : kill_host) (p : Z) (m : ProcessMonitor) :
  host_Process host p = None -> host_terminate host p = None ->
  host_wait host p 5 = None -> host_name host p = Raise NoSuchProcess ->
  kill_process host p m = (Ok false, logger_error (MsgKillFailed p NoSuchProcess) m).
Proof.
  intros H1 H2 H3 H4. apply kill_process_failure; [|reflexivity].
  unfold kill_process_try. now rewrite H1, H2, H3.
Qed.

(** C2, as the code has it: [kill_process] returns [True] only if the
    process was found, took the termination request and was seen to exit
    within the 5-second wait; when the process is not found, access is
    denied or the wait times out it logs the error and returns [False];
    and what it raises to its caller is never one of psutil's
    [NoSuchProcess], [AccessDenied] or [TimeoutExpired]: an exception
    reaches the caller exactly when the host raised one of another class,
    with the monitor unchanged. *)
Theorem kill_process_contained (host : kill_host) (p : Z) (m : ProcessMonitor) :
  (forall m', kill_process host p m = (Ok true, m') ->
     host_Process host p = None /\ host_terminate host p = None
     /\ host_wait host p 5 = None)
  /\ (host_Process host p = Some NoSuchProcess ->
      kill_process host p m
      = (Ok false, logger_error (MsgKillFailed p NoSuchProcess) m))
  /\ (host_Process host p = None -> host_terminate host p = Some AccessDenied ->
      kill_process host p m
      = (Ok false, logger_error (MsgKillFailed p AccessDenied) m))
  /\ (host_Process host p = None -> host_terminate host p = None ->
      host_wait host p 5 = Some TimeoutExpired ->
      kill_process host p m
      = (Ok false, logger_error (MsgKillFailed p TimeoutExpired) m))
  /\ (forall e, kill_process_try host p = Raise e -> is_kill_failure e = true ->
      kill_process host p m = (Ok false, logger_error (MsgKillFailed p e) m))
  /\ (forall e m', kill_process host p m = (Raise e, m') ->
      is_kill_failure e = false /\ kill_process_try host p = Raise e /\ m' = m)
  /\ (forall e, kill_process_try host p = Raise e -> is_kill_failure e = false ->
      kill_process host p m = (Raise e, m))
  /\ ((forall e, kill_process_try host p = Raise e -> is_kill_failure e = true) ->
      returns_bool host p m).
Proof.
  split; [intros m'; apply kill_process_true|].
  split.
  { intros H. apply kill_process_failure; [|reflexivity].
    unfold kill_process_try. now rewrite H. }
  split.
  { intros H1 H2. apply kill_process_failure; [|reflexivity].
    unfold kill_process_try. now rewrite H1, H2. }
  split.
  { intros H1 H2 H3. apply kill_process_failure; [|reflexivity].
    unfold kill_process_try. now rewrite H1, H2, H3. }
  split; [intros e; apply kill_process_failure|].
  split; [intros e m'; apply kill_process_raises|].
  split.
  { intros e Ht He. unfold kill_process. now rewrite Ht, He. }
  intros H. unfold returns_bool, kill_process.
  destruct (kill_process_try host p) as [nm|e] eqn:Ht; [eauto|].
  rewrite (H e eq_refl). eauto.
Qed.

Lemma kill_process_contained_witness :
  kill_process empty_host 4242 init
  = (Ok false, logger_error (MsgKillFailed 4242 NoSuchProcess) init)
  /\ returns_bool obedient_host 42 init.
Proof.
  split.
  - destruct (kill_process_contained empty_host 4242 init) as (_ & H & _).
    apply H. reflexivity.
  - destruct (kill_process_contained obedient_host 42 init)
      as (_ & _ & _ & _ & _ & _ & _ & H).
    apply H. intros e He. discriminate He.
Defined.

(** C2, as the claim states it, fails: for the integer -1 psutil's
    [Process] constructor raises [ValueError], which the [except] clause
    of [kill_process] does not name, so the exception reaches the
    caller. *)
Lemma kill_process_negative_pid_raises :
  kill_process empty_host (-1) init = (Raise (OtherError "ValueError"), init)
  /\ ~ (forall p : Z, returns_bool empty_host p init).
Proof.
  split; [reflexivity|].
  intros H. destruct (H (-1)) as (b & m' & Hk). discriminate Hk.
Qed.

(** ** The persisted snapshot *)

Lemma to_dict_entry (p : ProcessInfo) : is_process_entry "pid" (to_dict p).
Proof.
  exists (pid p), (name p), (status p), (cpu_percent p), (memory_percent p),
    (create_time p), (cmdline p).
  reflexivity.
Qed.

Lemma snapshot_document_shape (now : string) (ps : snapshot) :
  is_snapshot_document "pid" (snapshot_document now ps).
Proof.
  exists now, (to_dict <$> ps). split; [reflexivity|].
  apply Forall_fmap, Forall_forall. intros p _. apply to_dict_entry.
Qed.

(** C3, as the code has it: when [save_snapshot] succeeds, the file holds
    in full a document of exactly two top-level fields, the [timestamp]
    string of the clock and a [processes] array with one entry, in order,
    per record of the single [get_processes] call; each entry has exactly
    the fields [pid] (integer), [name] (string), [cpu_percent] (float),
    [memory_percent] (float), [status] (string), [create_time] (float)
    and [cmdline] (array of strings).  The identifier is stored under the
    key [pid].  The call succeeds whenever the enumeration does, the
    file can be opened and the writing goes through. *)
Theorem save_snapshot_document
    (host : save_host) (filename : string) (m : ProcessMonitor) (fs : files) :
  (forall m' fs', save_snapshot host filename m fs = (Ok tt, m', fs') ->
     exists ps : snapshot,
       get_processes (save_enumeration host) = Ok ps
       /\ fs' = <[filename := Whole (snapshot_document (save_now host) ps)]> fs
       /\ fs' !! filename = Some (Whole (snapshot_document (save_now host) ps))
       /\ is_snapshot_document "pid" (snapshot_document (save_now host) ps))
  /\ (forall ps, get_processes (save_enumeration host) = Ok ps ->
      save_open host = None -> save_write host = None ->
      save_snapshot host filename m fs
      = (Ok tt, logger_info (MsgSnapshotSaved filename) m,
         <[filename := Whole (snapshot_document (save_now host) ps)]> fs)).
Proof.
  unfold save_snapshot. split.
  - intros m' fs'.
    destruct (get_processes (save_enumeration host)) as [ps|e]; [|discriminate].
    destruct (save_open host); [discriminate|].
    destruct (save_write host); [discriminate|].
    intros [= <- <-]. exists ps.
    split; [reflexivity|]. split; [reflexivity|].
    split; [apply lookup_insert_eq|apply snapshot_document_shape].
  - intros ps -> -> ->. reflexivity.
Qed.

Lemma save_snapshot_document_witness :
  save_snapshot sample_save_host "snap.json" init ∅
  = (Ok tt, logger_info (MsgSnapshotSaved "snap.json") init,
     <[ "snap.json" :=
          Whole (snapshot_document "2024-05-01T12:00:00.000000"
                   [new_ProcessInfo (info_of 1 "init");
                    new_ProcessInfo (info_of 7 "sshd")]) ]> ∅).
Proof.
  destruct (save_snapshot_document sample_save_host "snap.json" init ∅)
    as (_ & H).
  apply H; reflexivity.
Defined.

(** C3, as the claim states it, fails: the entries of the persisted
    document have no [id] field; the identifier is under [pid]. *)
Lemma save_snapshot_has_no_id_field :
  exists (m' : ProcessMonitor) (fs' : files) (doc : json),
    save_snapshot sample_save_host "snap.json" init ∅ = (Ok tt, m', fs')
    /\ fs' !! "snap.json" = Some (Whole doc)
    /\ ~ is_snapshot_document "id" doc.
Proof.
  eexists _, _, _. split; [reflexivity|]. split; [apply lookup_insert_eq|].
  intros (ts & entries & Hdoc & Hall).
  injection Hdoc as _ <-.
  apply Forall_cons in Hall as [(i & nm & st & c & me & t & cl & Hentry) _].
  discriminate Hentry.
Qed.

(** ** Lifecycle *)



Lemma start_monitoring_monitoring (m : ProcessMonitor) :
  monitoring (start_monitoring m) = true.
Proof.
  unfold start_monitoring. destruct (monitoring m) eqn:H; [exact H|reflexivity].
Qed.

Lemma stop_monitoring_monitoring (j : bool) (m : ProcessMonitor) :
  monitoring (stop_monitoring j m) = false.
Proof.
  unfold stop_monitoring. destruct (monitoring m) eqn:H; simpl; [|exact H].
  destruct (monitor_thread m); reflexivity.
Qed.







(** ** Change detection *)

Lemma set_trace_id (m : ProcessMonitor) : set_trace (trace m) m = m.
Proof. now destruct m. Qed.

Lemma dict_by_pid_snoc (ps : snapshot) (p : ProcessInfo) :
  dict_by_pid (ps ++ [p]) = <[pid p := p]> (dict_by_pid ps).
Proof. unfold dict_by_pid. now rewrite fold_left_app. Qed.

Lemma dict_by_pid_ok (ps : snapshot) : cache_ok (dict_by_pid ps).
Proof.
  induction ps as [|p ps IH] using rev_ind; intros i r.
  - unfold dict_by_pid; simpl. now rewrite lookup_empty.
  - rewrite dict_by_pid_snoc.
    destruct (decide (pid p = i)) as [<-|Hne].
    + rewrite lookup_insert_eq. now intros [= <-].
    + rewrite lookup_insert_ne by exact Hne. apply IH.
Qed.

Lemma dom_dict_by_pid (ps : snapshot) : dom (dict_by_pid ps) = ids ps.
Proof.
  unfold ids. induction ps as [|p ps IH] using rev_ind.
  - unfold dict_by_pid; simpl. apply dom_empty_L.
  - rewrite dict_by_pid_snoc, dom_insert_L, IH, fmap_app, list_to_set_app_L.
    simpl. set_solver.
Qed.

(** The dictionary files under each pid the last record of the snapshot
    that carries it. *)
Lemma dict_by_pid_lookup (ps : snapshot) (i : Z) :
  dict_by_pid ps !! i = last (filter (fun r => pid r = i) ps).
Proof.
  induction ps as [|p ps IH] using rev_ind.
  - unfold dict_by_pid; simpl. apply lookup_empty.
  - rewrite dict_by_pid_snoc, filter_app, filter_cons, filter_nil.
    destruct (decide (pid p = i)) as [<-|Hne].
    + now rewrite lookup_insert_eq, last_snoc.
    + rewrite lookup_insert_ne by exact Hne. now rewrite app_nil_r.
Qed.

Lemma dict_by_pid_elem (ps : snapshot) (i : Z) (r : ProcessInfo) :
  dict_by_pid ps !! i = Some r -> r ∈ ps /\ pid r = i.
Proof.
  rewrite dict_by_pid_lookup. intros H.
  apply last_Some in H as (l & H).
  assert (Hr : r ∈ filter (fun r => pid r = i) ps).
  { rewrite H. apply elem_of_app. right. left. }
  apply list_elem_of_filter in Hr as [Hp Hr]. auto.
Qed.

Lemma log_changes_spec (mk : string -> Z -> message) (d : gmap Z ProcessInfo)
    (pids : list Z) (m : ProcessMonitor) :
  (forall i, i ∈ pids -> is_Some (d !! i)) ->
  log_changes mk d pids m
  = (Ok tt, set_trace (trace m ++ change_lines mk d pids) m).
Proof.
  revert m. induction pids as [|i pids IH]; intros m Hin; simpl.
  - now rewrite app_nil_r, set_trace_id.
  - destruct (Hin i) as [proc Hi]; [left|].
    unfold change_lines; simpl. rewrite Hi. simpl.
    rewrite IH by (intros k Hk; apply Hin; now right).
    unfold logger_info, emit, set_trace; simpl.
    now rewrite <- app_assoc.
Qed.

Lemma detect_changes_eq (current_processes : snapshot) (m : ProcessMonitor) :
  _detect_changes current_processes m
  = (Ok tt,
     set_process_cache (dict_by_pid current_processes)
       (set_trace
          (trace m
           ++ change_lines MsgNewProcess (dict_by_pid current_processes)
                (elements (dom (dict_by_pid current_processes)
                           ∖ dom (process_cache m)))
           ++ change_lines MsgProcessTerminated (process_cache m)
                (elements (dom (process_cache m)
                           ∖ dom (dict_by_pid current_processes))))
          m)).
Proof.
  unfold _detect_changes.
  rewrite log_changes_spec.
  2:{ intros i Hi. apply elem_of_elements, elem_of_difference in Hi as [Hi _].
      now apply elem_of_dom. }
  simpl. rewrite log_changes_spec.
  2:{ intros i Hi. apply elem_of_elements, elem_of_difference in Hi as [Hi _].
      now apply elem_of_dom in Hi. }
  unfold set_trace; simpl. now rewrite <- app_assoc.
Qed.

(** The diff step never raises: the [KeyError] of its dictionary lookups
    cannot occur. *)
Lemma detect_changes_Ok (current_processes : snapshot) (m : ProcessMonitor) :
  fst (_detect_changes current_processes m) = Ok tt.
Proof. now rewrite detect_changes_eq. Qed.

Lemma appeared_app (a b : list effect) :
  appeared (a ++ b) = appeared a ++ appeared b.
Proof. apply omap_app. Qed.

Lemma disappeared_app (a b : list effect) :
  disappeared (a ++ b) = disappeared a ++ disappeared b.
Proof. apply omap_app. Qed.

Lemma change_lines_cons (mk : string -> Z -> message) (d : gmap Z ProcessInfo)
    (i : Z) (pids : list Z) :
  change_lines mk d (i :: pids)
  = match d !! i with
    | Some proc => Log INFO (mk (name proc) (pid proc)) :: change_lines mk d pids
    | None => change_lines mk d pids
    end.
Proof. unfold change_lines; simpl. now destruct (d !! i). Qed.

Lemma printed_pairs_cons (d : gmap Z ProcessInfo) (i : Z) (pids : list Z) :
  printed_pairs d (i :: pids)
  = match d !! i with
    | Some proc => (pid proc, name proc) :: printed_pairs d pids
    | None => printed_pairs d pids
    end.
Proof. unfold printed_pairs; simpl. now destruct (d !! i). Qed.

Lemma change_lines_pairs (d : gmap Z ProcessInfo) (pids : list Z) :
  appeared (change_lines MsgNewProcess d pids) = printed_pairs d pids
  /\ disappeared (change_lines MsgNewProcess d pids) = []
  /\ appeared (change_lines MsgProcessTerminated d pids) = []
  /\ disappeared (change_lines MsgProcessTerminated d pids) = printed_pairs d pids
  /\ (forall mk, length (change_lines mk d pids) = length (printed_pairs d pids)).
Proof.
  induction pids as [|i pids (IH1 & IH2 & IH3 & IH4 & IH5)].
  - repeat split; reflexivity.
  - rewrite !change_lines_cons, printed_pairs_cons.
    destruct (d !! i) as [proc|] eqn:Hi.
    + change (appeared (?e :: ?l)) with (appeared [e] ++ appeared l).
      change (disappeared (?e :: ?l)) with (disappeared [e] ++ disappeared l).
      rewrite IH1, IH2, IH3, IH4. repeat split; try reflexivity.
      intros mk. rewrite change_lines_cons, Hi. simpl. now rewrite IH5.
    + repeat split; try assumption.
      intros mk. rewrite change_lines_cons, Hi. apply IH5.
Qed.

Lemma printed_pairs_fst (d : gmap Z ProcessInfo) (pids : list Z) :
  cache_ok d -> (forall i, i ∈ pids -> is_Some (d !! i)) ->
  (printed_pairs d pids).*1 = pids.
Proof.
  intros Hd. unfold printed_pairs.
  induction pids as [|i pids IH]; intros Hin; simpl; [reflexivity|].
  destruct (Hin i) as [proc Hi]; [left|].
  rewrite Hi. simpl. rewrite (Hd i proc Hi).
  f_equal. apply IH. intros k Hk. apply Hin. now right.
Qed.

Lemma printed_pairs_elem (d : gmap Z ProcessInfo) (pids : list Z)
    (i : Z) (nm : string) :
  cache_ok d -> (i, nm) ∈ printed_pairs d pids ->
  i ∈ pids /\ exists r, d !! i = Some r /\ name r = nm.
Proof.
  intros Hd H. apply list_elem_of_omap in H as (j & Hj & H).
  destruct (d !! j) as [proc|] eqn:Hdj; simpl in H; [|discriminate].
  injection H as Hp Hn. rewrite (Hd j proc Hdj) in Hp. subst j.
  split; [exact Hj|]. exists proc. auto.
Qed.

(** The cache stays a dictionary keyed by pid: the empty cache of a new
    monitor is one, and each diff step leaves one. *)
Lemma cache_ok_invariant (current_processes : snapshot) (m : ProcessMonitor) :
  cache_ok (process_cache init)
  /\ cache_ok (process_cache (snd (_detect_changes current_processes m))).
Proof.
  split.
  - intros i r H. simpl in H. now rewrite lookup_empty in H.
  - rewrite detect_changes_eq. simpl. apply dict_by_pid_ok.
Qed.

(** C1: one step of change detection on a snapshot S and a cache C (a
    dictionary keyed by pid) does not raise and writes, besides nothing
    else, exactly one "appeared" line for each identifier of
    ids(S) - ids(C), with the name S has for it, and exactly one
    "disappeared" line for each identifier of ids(C) - ids(S), with the
    name of the last-known record of C.  Afterwards the cache is the
    dictionary built from S alone (under each pid, the last record of S
    with that pid), whatever C was. *)
Theorem detect_changes_diff (current_processes : snapshot) (m : ProcessMonitor) :
  cache_ok (process_cache m) ->
  exists (m' : ProcessMonitor) (es : list effect),
    _detect_changes current_processes m = (Ok tt, m')
    /\ trace m' = trace m ++ es
    /\ (appeared es).*1
       ≡ₚ elements (ids current_processes ∖ dom (process_cache m))
    /\ (forall i nm, (i, nm) ∈ appeared es ->
        exists r, r ∈ current_processes /\ pid r = i /\ name r = nm)
    /\ (disappeared es).*1
       ≡ₚ elements (dom (process_cache m) ∖ ids current_processes)
    /\ (forall i nm, (i, nm) ∈ disappeared es ->
        exists r, process_cache m !! i = Some r /\ name r = nm)
    /\ length es = (length (appeared es) + length (disappeared es))%nat
    /\ process_cache m' = dict_by_pid current_processes
    /\ dom (process_cache m') = ids current_processes
    /\ (forall i, process_cache m' !! i
                  = last (filter (fun r => pid r = i) current_processes)).
Proof.
  intros HC.
  set (d := dict_by_pid current_processes).
  set (new_pids := elements (dom d ∖ dom (process_cache m))).
  set (dead_pids := elements (dom (process_cache m) ∖ dom d)).
  exists (set_process_cache d
            (set_trace (trace m ++ change_lines MsgNewProcess d new_pids
                        ++ change_lines MsgProcessTerminated (process_cache m)
                             dead_pids) m)),
    (change_lines MsgNewProcess d new_pids
     ++ change_lines MsgProcessTerminated (process_cache m) dead_pids).
  destruct (change_lines_pairs d new_pids) as (An & Dn & _ & _ & Ln).
  destruct (change_lines_pairs (process_cache m) dead_pids)
    as (_ & _ & Ad & Dd & Ld).
  assert (Hnew : forall i, i ∈ new_pids -> is_Some (d !! i)).
  { intros i Hi. apply elem_of_elements, elem_of_difference in Hi as [Hi _].
    now apply elem_of_dom. }
  assert (Hdead : forall i, i ∈ dead_pids -> is_Some (process_cache m !! i)).
  { intros i Hi. apply elem_of_elements, elem_of_difference in Hi as [Hi _].
    now apply elem_of_dom in Hi. }
  rewrite appeared_app, disappeared_app, An, Dn, Ad, Dd, app_nil_r.
  simpl app.
  split; [apply detect_changes_eq|].
  split; [reflexivity|].
  split.
  { rewrite (printed_pairs_fst d new_pids (dict_by_pid_ok _) Hnew).
    unfold new_pids, d. now rewrite dom_dict_by_pid. }
  split.
  { intros i nm H.
    apply (printed_pairs_elem d new_pids i nm (dict_by_pid_ok _)) in H
      as (_ & r & Hr & Hn).
    exists r. apply dict_by_pid_elem in Hr as [Hr Hp]. auto. }
  split.
  { rewrite (printed_pairs_fst _ dead_pids HC Hdead).
    unfold dead_pids, d. now rewrite dom_dict_by_pid. }
  split.
  { intros i nm H.
    now apply (printed_pairs_elem _ dead_pids i nm HC) in H as (_ & H). }
  split.
  { rewrite length_app. now rewrite (Ln MsgNewProcess), (Ld MsgProcessTerminated). }
  split; [reflexivity|].
  split; [apply dom_dict_by_pid|].
  intros i. apply dict_by_pid_lookup.
Qed.

Lemma detect_changes_diff_witness :
  exists (m' : ProcessMonitor) (es : list effect),
    _detect_changes [rec_B; rec_C] monitor_AB = (Ok tt, m')
    /\ trace m' = trace monitor_AB ++ es
    /\ (appeared es).*1
       ≡ₚ elements (ids [rec_B; rec_C] ∖ dom (process_cache monitor_AB))
    /\ (forall i nm, (i, nm) ∈ appeared es ->
        exists r, r ∈ [rec_B; rec_C] /\ pid r = i /\ name r = nm)
    /\ (disappeared es).*1
       ≡ₚ elements (dom (process_cache monitor_AB) ∖ ids [rec_B; rec_C])
    /\ (forall i nm, (i, nm) ∈ disappeared es ->
        exists r, process_cache monitor_AB !! i = Some r /\ name r = nm)
    /\ length es = (length (appeared es) + length (disappeared es))%nat
    /\ process_cache m' = dict_by_pid [rec_B; rec_C]
    /\ dom (process_cache m') = ids [rec_B; rec_C]
    /\ (forall i, process_cache m' !! i
                  = last (filter (fun r => pid r = i) [rec_B; rec_C])).
Proof.
  apply (detect_changes_diff [rec_B; rec_C] monitor_AB).
  apply dict_by_pid_ok.
Defined.

(** The diff example: with the cache {1: A, 2: B} and the snapshot
    [B; C], the step writes one "appeared" line for 3 and one
    "disappeared" line for 1, and leaves the cache {2: B, 3: C}. *)
Example detect_changes_example :
  _detect_changes [rec_B; rec_C] monitor_AB
  = (Ok tt,
     set_process_cache (<[2 := rec_B]> (<[3 := rec_C]> ∅))
       (set_trace [Log INFO (MsgNewProcess "cron" 3);
                   Log INFO (MsgProcessTerminated "init" 1)] init)).
Proof. vm_compute. reflexivity. Qed.

(** ** The polling loop *)

Lemma notify_callbacks_eq (cbs : list callback) (processes : snapshot)
    (m : ProcessMonitor) :
  notify_callbacks cbs processes m
  = set_trace (trace m ++ notify_effects cbs processes) m.
Proof.
  revert m. induction cbs as [|cb cbs IH]; intros m; simpl.
  - now rewrite app_nil_r, set_trace_id.
  - destruct (cb_run cb processes) as [e|]; rewrite IH;
      unfold logger_error, emit, set_trace; simpl;
      now rewrite <- ?app_assoc.
Qed.

Lemma sleep_eq (m : ProcessMonitor) :
  sleep m
  = match time_sleep (update_interval m) with
    | Some e => (Raise e, m)
    | None => (Ok tt, emit (Sleep (update_interval m)) m)
    end.
Proof. reflexivity. Qed.

(** An iteration leaves the loop exactly when [time.sleep] refuses the
    interval, with the error of [time.sleep]. *)
Lemma loop_body_eq (host : enumeration) (m : ProcessMonitor) :
  loop_body host m
  = (match time_sleep (update_interval m) with
     | None => Ok tt
     | Some e => Raise e
     end,
     match get_processes host with
     | Ok processes =>
         set_process_cache (dict_by_pid processes)
           (set_trace (trace m ++ cycle_effects host m) m)
     | Raise _ => set_trace (trace m ++ cycle_effects host m) m
     end).
Proof.
  unfold loop_body, cycle_try, cycle_effects.
  destruct (get_processes host) as [processes|e].
  - rewrite detect_changes_eq, notify_callbacks_eq, sleep_eq.
    change (update_interval (set_trace _ (set_process_cache _ (set_trace _ m))))
      with (update_interval m).
    destruct (time_sleep (update_interval m)) as [e|] eqn:Hs.
    + rewrite sleep_eq.
      change (update_interval (logger_error _ _)) with (update_interval m).
      rewrite Hs. f_equal.
      unfold logger_error, emit, set_trace, set_process_cache, diff_lines; simpl.
      now rewrite <- !app_assoc.
    + f_equal.
      unfold emit, set_trace, set_process_cache, diff_lines; simpl.
      now rewrite <- !app_assoc.
  - rewrite sleep_eq.
    change (update_interval (logger_error _ m)) with (update_interval m).
    destruct (time_sleep (update_interval m)) as [e'|]; f_equal;
      unfold logger_error, emit, set_trace; simpl; now rewrite <- ?app_assoc.
Qed.

Lemma cycle_eq (host : enumeration) (m : ProcessMonitor) :
  cycle host m
  = match get_processes host with
    | Ok processes =>
        set_process_cache (dict_by_pid processes)
          (set_trace (trace m ++ cycle_effects host m) m)
    | Raise _ => set_trace (trace m ++ cycle_effects host m) m
    end.
Proof. unfold cycle. now rewrite loop_body_eq. Qed.

Lemma cycle_frame (host : enumeration) (m : ProcessMonitor) :
  trace (cycle host m) = trace m ++ cycle_effects host m
  /\ callbacks (cycle host m) = callbacks m
  /\ update_interval (cycle host m) = update_interval m
  /\ monitoring (cycle host m) = monitoring m.
Proof.
  rewrite cycle_eq. destruct (get_processes host); repeat split; reflexivity.
Qed.

Lemma count_calls_app (i : nat) (a b : list effect) :
  count_calls i (a ++ b) = (count_calls i a + count_calls i b)%nat.
Proof. unfold count_calls. now rewrite List.filter_app, length_app. Qed.

Lemma count_sleeps_app (a b : list effect) :
  count_sleeps (a ++ b) = (count_sleeps a + count_sleeps b)%nat.
Proof. unfold count_sleeps. now rewrite List.filter_app, length_app. Qed.

Lemma loop_errors_app (a b : list effect) :
  loop_errors (a ++ b) = loop_errors a ++ loop_errors b.
Proof. apply omap_app. Qed.

(** The lines of the diff step are log lines at level INFO: neither
    invocations, nor sleeps, nor errors. *)
Lemma change_lines_quiet (mk : string -> Z -> message) (d : gmap Z ProcessInfo)
    (pids : list Z) (i : nat) :
  count_calls i (change_lines mk d pids) = 0%nat
  /\ count_sleeps (change_lines mk d pids) = 0%nat
  /\ loop_errors (change_lines mk d pids) = [].
Proof.
  induction pids as [|k pids (IH1 & IH2 & IH3)]; [repeat split; reflexivity|].
  rewrite change_lines_cons. destruct (d !! k) as [proc|]; [|auto].
  repeat split; [exact IH1|exact IH2|exact IH3].
Qed.

Lemma diff_lines_quiet (processes : snapshot) (cache : gmap Z ProcessInfo) (i : nat) :
  count_calls i (diff_lines processes cache) = 0%nat
  /\ count_sleeps (diff_lines processes cache) = 0%nat
  /\ loop_errors (diff_lines processes cache) = [].
Proof.
  unfold diff_lines.
  rewrite count_calls_app, count_sleeps_app, loop_errors_app.
  destruct (change_lines_quiet MsgNewProcess (dict_by_pid processes)
              (elements (dom (dict_by_pid processes) ∖ dom cache)) i)
    as (-> & -> & ->).
  destruct (change_lines_quiet MsgProcessTerminated cache
              (elements (dom cache ∖ dom (dict_by_pid processes))) i)
    as (-> & -> & ->).
  repeat split; reflexivity.
Qed.

Lemma notify_effects_cons (cb : callback) (cbs : list callback)
    (processes : snapshot) :
  notify_effects (cb :: cbs) processes
  = (Call (cb_id cb) processes
     :: match cb_run cb processes with
        | Some e => [Log ERROR (MsgCallbackError e)]
        | None => []
        end)
    ++ notify_effects cbs processes.
Proof. reflexivity. Qed.

Lemma calls_app (a b : list effect) : calls (a ++ b) = calls a ++ calls b.
Proof. apply omap_app. Qed.

Lemma callback_errors_app (a b : list effect) :
  callback_errors (a ++ b) = callback_errors a ++ callback_errors b.
Proof. apply omap_app. Qed.

Lemma notify_effects_calls (cbs : list callback) (processes : snapshot) :
  calls (notify_effects cbs processes)
  = (fun cb => (cb_id cb, processes)) <$> cbs
  /\ callback_errors (notify_effects cbs processes)
     = omap (fun cb => cb_run cb processes) cbs
  /\ count_sleeps (notify_effects cbs processes) = 0%nat
  /\ loop_errors (notify_effects cbs processes) = [].
Proof.
  induction cbs as [|cb cbs (IH1 & IH2 & IH3 & IH4)]; [repeat split; reflexivity|].
  rewrite notify_effects_cons, calls_app, callback_errors_app,
    count_sleeps_app, loop_errors_app, IH1, IH2, IH3, IH4.
  rewrite fmap_cons.
  change (omap (fun cb0 => cb_run cb0 processes) (cb :: cbs))
    with (match cb_run cb processes with
          | Some e => e :: omap (fun cb0 => cb_run cb0 processes) cbs
          | None => omap (fun cb0 => cb_run cb0 processes) cbs
          end).
  destruct (cb_run cb processes) as [e|]; repeat split; reflexivity.
Qed.

Lemma notify_effects_count (cbs : list callback) (processes : snapshot) (i : nat) :
  count_calls i (notify_effects cbs processes)
  = length (List.filter (fun cb => Nat.eqb (cb_id cb) i) cbs).
Proof.
  induction cbs as [|cb cbs IH]; [reflexivity|].
  rewrite notify_effects_cons, count_calls_app, IH.
  unfold count_calls. simpl.
  destruct (cb_run cb processes) as [e|]; simpl;
    destruct (Nat.eqb (cb_id cb) i); reflexivity.
Qed.

Lemma notify_effects_length (cbs : list callback) (processes : snapshot) :
  length (notify_effects cbs processes)
  = (length (calls (notify_effects cbs processes))
     + length (callback_errors (notify_effects cbs processes)))%nat.
Proof.
  induction cbs as [|cb cbs IH]; [reflexivity|].
  rewrite notify_effects_cons, calls_app, callback_errors_app, !length_app, IH.
  destruct (cb_run cb processes) as [e|]; simpl; lia.
Qed.

Lemma register_callbacks (cbs : list callback) (m : ProcessMonitor) :
  callbacks (register cbs m) = callbacks m ++ cbs.
Proof.
  revert m. induction cbs as [|cb cbs IH]; intros m; simpl.
  - now rewrite app_nil_r.
  - rewrite IH. simpl. now rewrite <- app_assoc.
Qed.

Lemma cycle_effects_counts (host : enumeration) (m : ProcessMonitor) (i : nat) :
  count_calls i (cycle_effects host m)
  = match get_processes host with
    | Ok _ => length (List.filter (fun cb => Nat.eqb (cb_id cb) i) (callbacks m))
    | Raise _ => 0%nat
    end
  /\ count_sleeps (cycle_effects host m)
     = match time_sleep (update_interval m) with
       | None => 1%nat
       | Some _ => 0%nat
       end
  /\ loop_errors (cycle_effects host m)
     = match get_processes host with
       | Ok _ =>
           match time_sleep (update_interval m) with
           | None => []
           | Some e => [e]
           end
       | Raise e => [e]
       end
  /\ callback_errors (cycle_effects host m)
     = match get_processes host with
       | Ok processes => omap (fun cb => cb_run cb processes) (callbacks m)
       | Raise _ => []
       end.
Proof.
  unfold cycle_effects. destruct (get_processes host) as [processes|e].
  - rewrite !count_calls_app, !count_sleeps_app, !loop_errors_app,
      !callback_errors_app.
    destruct (diff_lines_quiet processes (process_cache m) i) as (-> & -> & ->).
    destruct (notify_effects_calls (callbacks m) processes) as (_ & -> & -> & ->).
    rewrite notify_effects_count.
    assert (Hd : callback_errors (diff_lines processes (process_cache m)) = []).
    { unfold diff_lines. rewrite callback_errors_app.
      assert (Hq : forall mk d pids,
                 callback_errors (change_lines mk d pids) = []).
      { intros mk d pids. induction pids as [|k pids IHp]; [reflexivity|].
        rewrite change_lines_cons. destruct (d !! k); exact IHp. }
      now rewrite !Hq. }
    rewrite Hd.
    destruct (time_sleep (update_interval m)) as [e|]; simpl;
      (repeat split; try reflexivity; try (unfold count_calls; simpl; lia);
       now rewrite app_nil_r).
  - destruct (time_sleep (update_interval m)); repeat split; reflexivity.
Qed.

Lemma run_cycles_callbacks (hosts : list enumeration) (m : ProcessMonitor) :
  callbacks (run_cycles hosts m) = callbacks m.
Proof.
  revert m. induction hosts as [|host hosts IH]; intros m; [reflexivity|].
  simpl. rewrite IH. apply cycle_frame.
Qed.

Lemma run_cycles_interval (hosts : list enumeration) (m : ProcessMonitor) :
  update_interval (run_cycles hosts m) = update_interval m.
Proof.
  revert m. induction hosts as [|host hosts IH]; intros m; [reflexivity|].
  simpl. rewrite IH. apply cycle_frame.
Qed.

Lemma run_cycles_counts (hosts : list enumeration) (m : ProcessMonitor) :
  time_sleep (update_interval m) = None ->
  count_sleeps (trace (run_cycles hosts m))
  = (count_sleeps (trace m) + length hosts)%nat
  /\ loop_errors (trace (run_cycles hosts m))
     = loop_errors (trace m) ++ enumeration_errors hosts.
Proof.
  revert m. induction hosts as [|host hosts IH]; intros m Hv; simpl.
  - split; [lia|]. unfold enumeration_errors; simpl. now rewrite app_nil_r.
  - destruct (cycle_frame host m) as (Ht & _ & Hi & _).
    destruct (IH (cycle host m)) as (-> & ->); [now rewrite Hi|].
    rewrite Ht.
    destruct (cycle_effects_counts host m 0%nat) as (_ & Hs & He & _).
    rewrite count_sleeps_app, loop_errors_app, Hs, He, Hv.
    split; [lia|].
    rewrite <- app_assoc. f_equal.
    unfold enumeration_errors; simpl.
    destruct (get_processes host); reflexivity.
Qed.

Lemma run_cycles_calls (hosts : list enumeration) (m : ProcessMonitor) (i : nat) :
  Forall enumerates hosts ->
  count_calls i (trace (run_cycles hosts m))
  = (count_calls i (trace m)
     + length hosts
       * length (List.filter (fun cb => Nat.eqb (cb_id cb) i) (callbacks m)))%nat.
Proof.
  intros H. revert m. induction H as [|host hosts [ps Hps] _ IH]; intros m; simpl.
  - lia.
  - rewrite IH.
    destruct (cycle_frame host m) as (-> & -> & _).
    destruct (cycle_effects_counts host m i) as (Hc & _).
    rewrite count_calls_app, Hc, Hps. lia.
Qed.

(** With an interval that [time.sleep] accepts and without a stop signal
    the loop runs one cycle per tick and is still running afterwards. *)
Lemma monitor_loop_runs (schedule : list tick) (m : ProcessMonitor) :
  time_sleep (update_interval m) = None ->
  Forall (fun t => tick_stop t = false) schedule ->
  _monitor_loop schedule m = (Ok false, run_cycles (tick_host <$> schedule) m).
Proof.
  intros Hv H. revert m Hv.
  induction H as [|t schedule Ht _ IH]; intros m Hv; simpl.
  - reflexivity.
  - rewrite Ht, loop_body_eq, Hv. rewrite <- cycle_eq. apply IH.
    destruct (cycle_frame (tick_host t) m) as (_ & _ & -> & _). exact Hv.
Qed.

(** With such an interval the loop never ends by an exception, and it
    returns exactly when it reads the stop signal as set. *)
Lemma monitor_loop_exit (schedule : list tick) (m : ProcessMonitor) :
  time_sleep (update_interval m) = None ->
  (fst (_monitor_loop schedule m) = Ok true
   <-> Exists (fun t => tick_stop t = true) schedule)
  /\ (forall e, fst (_monitor_loop schedule m) <> Raise e).
Proof.
  revert m. induction schedule as [|t schedule IH]; intros m Hv; simpl.
  - split; [|discriminate]. split; [discriminate|]. intros H. inversion H.
  - destruct (tick_stop t) eqn:Ht; simpl.
    + split; [|discriminate]. split; [|reflexivity]. intros _. now left.
    + rewrite loop_body_eq, Hv. rewrite <- cycle_eq.
      destruct (IH (cycle (tick_host t) m)) as (IH1 & IH2).
      { destruct (cycle_frame (tick_host t) m) as (_ & _ & -> & _). exact Hv. }
      split; [|exact IH2]. rewrite IH1. split; [now right|].
      intros H. inversion H as [? ? Hs|? ? Hs]; subst; [congruence|exact Hs].
Qed.

Lemma monitor_loop_stops (pre post : list tick) (t : tick) (m : ProcessMonitor) :
  time_sleep (update_interval m) = None ->
  Forall (fun t => tick_stop t = false) pre -> tick_stop t = true ->
  _monitor_loop (pre ++ t :: post) m
  = (Ok true, run_cycles (tick_host <$> pre) m).
Proof.
  intros Hv H Ht. revert m Hv.
  induction H as [|u pre Hu _ IH]; intros m Hv; simpl.
  - now rewrite Ht.
  - rewrite Hu, loop_body_eq, Hv. rewrite <- cycle_eq. apply IH.
    destruct (cycle_frame (tick_host u) m) as (_ & _ & -> & _). exact Hv.
Qed.

(** With an interval that [time.sleep] refuses, the first iteration ends
    the loop with the error of [time.sleep], and has not slept. *)
Lemma monitor_loop_dies (t : tick) (rest : list tick) (m : ProcessMonitor)
    (e : exn) :
  time_sleep (update_interval m) = Some e -> tick_stop t = false ->
  _monitor_loop (t :: rest) m = (Raise e, cycle (tick_host t) m)
  /\ count_sleeps (cycle_effects (tick_host t) m) = 0%nat.
Proof.
  intros Hv Ht. split.
  - simpl. rewrite Ht, loop_body_eq, Hv. now rewrite <- cycle_eq.
  - destruct (cycle_effects_counts (tick_host t) m 0%nat) as (_ & -> & _).
    now rewrite Hv.
Qed.

(** The invocations of a cycle: every registered callback, in order, with
    the snapshot of the cycle; none when the enumeration raised. *)
Lemma cycle_effects_calls (host : enumeration) (m : ProcessMonitor) :
  calls (cycle_effects host m)
  = match get_processes host with
    | Ok processes => (fun cb => (cb_id cb, processes)) <$> callbacks m
    | Raise _ => []
    end.
Proof.
  unfold cycle_effects. destruct (get_processes host) as [processes|e].
  - rewrite !calls_app.
    destruct (notify_effects_calls (callbacks m) processes) as (-> & _).
    assert (Hq : forall mk d pids, calls (change_lines mk d pids) = []).
    { intros mk d pids. induction pids as [|k pids IH]; [reflexivity|].
      rewrite change_lines_cons. destruct (d !! k); exact IH. }
    unfold diff_lines. rewrite calls_app, !Hq.
    destruct (time_sleep (update_interval m)); simpl; now rewrite app_nil_r.
  - destruct (time_sleep (update_interval m)); reflexivity.
Qed.

(** C5: callbacks are kept in registration order, and dispatching a
    snapshot invokes every registered callback once, in that order, each
    with that same snapshot; a callback that raises adds one "Callback
    error" line and nothing else, and the callbacks after it are invoked
    all the same.  A cycle whose enumeration succeeds dispatches its
    snapshot to all registered callbacks.  In particular, with a callback
    A that always raises registered before a callback B that never does,
    five consecutive cycles (each enumerating its host) invoke B exactly
    five times, and A as well. *)
Theorem callbacks_isolated
    (cbs : list callback) (processes : snapshot) (m : ProcessMonitor)
    (A B : callback) (hosts : list enumeration) :
  callbacks (register cbs init) = cbs
  /\ (exists es : list effect,
        trace (notify_callbacks cbs processes m) = trace m ++ es
        /\ calls es = (fun cb => (cb_id cb, processes)) <$> cbs
        /\ callback_errors es = omap (fun cb => cb_run cb processes) cbs
        /\ length es = (length (calls es) + length (callback_errors es))%nat)
  /\ (forall host, get_processes host = Ok processes ->
        trace (cycle host m) = trace m ++ cycle_effects host m
        /\ calls (cycle_effects host m)
           = (fun cb => (cb_id cb, processes)) <$> callbacks m)
  /\ ((forall s, is_Some (cb_run A s)) -> (forall s, cb_run B s = None) ->
      cb_id A <> cb_id B -> Forall enumerates hosts -> length hosts = 5%nat ->
      _monitor_loop (mkTick false <$> hosts) (register [A; B] init)
      = (Ok false, run_cycles hosts (register [A; B] init))
      /\ count_calls (cb_id B)
           (trace (run_cycles hosts (register [A; B] init))) = 5%nat
      /\ count_calls (cb_id A)
           (trace (run_cycles hosts (register [A; B] init))) = 5%nat
      /\ length (callback_errors
                   (trace (run_cycles hosts (register [A; B] init)))) = 5%nat).
Proof.
  split; [apply (register_callbacks cbs init)|].
  split.
  { exists (notify_effects cbs processes).
    rewrite notify_callbacks_eq.
    destruct (notify_effects_calls cbs processes) as (Hc & He & _).
    split; [reflexivity|]. split; [exact Hc|]. split; [exact He|].
    apply notify_effects_length. }
  split.
  { intros host Hps. split; [apply cycle_frame|].
    rewrite cycle_effects_calls. now rewrite Hps. }
  intros HA HB Hne Hhosts Hlen.
  split.
  { rewrite monitor_loop_runs.
    - rewrite <- list_fmap_compose. simpl. now rewrite list_fmap_id.
    - reflexivity.
    - apply Forall_fmap, Forall_forall. intros host _. reflexivity. }
  assert (HBB : Nat.eqb (cb_id B) (cb_id B) = true) by apply Nat.eqb_refl.
  assert (HAB : Nat.eqb (cb_id A) (cb_id B) = false) by now apply Nat.eqb_neq.
  assert (HBA : Nat.eqb (cb_id B) (cb_id A) = false)
    by (apply Nat.eqb_neq; congruence).
  assert (HAA : Nat.eqb (cb_id A) (cb_id A) = true) by apply Nat.eqb_refl.
  split.
  { rewrite run_cycles_calls by exact Hhosts. simpl.
    rewrite HAB, HBB, Hlen. reflexivity. }
  split.
  { rewrite run_cycles_calls by exact Hhosts. simpl.
    rewrite HAA, HBA, Hlen. reflexivity. }
  clear HBB HAB HBA HAA Hne.
  assert (Hgen : forall hs, Forall enumerates hs ->
            forall m0, callbacks m0 = [A; B] ->
            length (callback_errors (trace (run_cycles hs m0)))
            = (length (callback_errors (trace m0)) + length hs)%nat).
  { intros hs Hhs. induction Hhs as [|host hs [ps Hps] _ IH]; intros m0 Hm0;
      simpl; [lia|].
    rewrite IH by (destruct (cycle_frame host m0) as (_ & -> & _); exact Hm0).
    destruct (cycle_frame host m0) as (-> & _).
    rewrite callback_errors_app, length_app.
    destruct (cycle_effects_counts host m0 0%nat) as (_ & _ & _ & ->).
    rewrite Hps, Hm0. simpl.
    destruct (HA ps) as [e ->]. rewrite (HB ps). simpl. lia. }
  rewrite (Hgen hosts Hhosts) by reflexivity. simpl. exact Hlen.
Qed.

Lemma callbacks_isolated_witness :
  _monitor_loop (mkTick false <$> five_hosts)
    (register [failing_callback; succeeding_callback] init)
  = (Ok false,
     run_cycles five_hosts (register [failing_callback; succeeding_callback] init))
  /\ count_calls (cb_id succeeding_callback)
       (trace (run_cycles five_hosts
                 (register [failing_callback; succeeding_callback] init)))
     = 5%nat
  /\ count_calls (cb_id failing_callback)
       (trace (run_cycles five_hosts
                 (register [failing_callback; succeeding_callback] init)))
     = 5%nat
  /\ length (callback_errors
               (trace (run_cycles five_hosts
                         (register [failing_callback; succeeding_callback] init))))
     = 5%nat.
Proof.
  destruct (callbacks_isolated [] [] init failing_callback succeeding_callback
              five_hosts) as (_ & _ & _ & H).
  apply H.
  - intros s. exists (OtherError "RuntimeError"). reflexivity.
  - intros s. reflexivity.
  - simpl. discriminate.
  - repeat (apply Forall_cons; split; [eexists; reflexivity|]). apply Forall_nil.
    exact I.
  - reflexivity.
Defined.

(** C6, as the code has it: with an interval that [time.sleep] accepts, a
    cycle in which the enumeration raises ends with one "Monitor loop
    error" line and the usual sleep (the diff step never raises), and
    every cycle, failed or not, sleeps exactly once and ends normally.
    Along a schedule on which the stop signal is never read as set the
    loop is then still running after one cycle per tick, whatever
    failed, having slept once per tick and logged each failed
    enumeration once; no exception ever leaves the loop, and it returns
    if and only if some tick reads the stop signal as set, after the
    cycles of the ticks before it.  With an interval that [time.sleep]
    refuses, the sleep of the handler, which is in no [try], raises: the
    first iteration ends the loop with that error, without a sleep. *)
Theorem monitor_loop_survives
    (schedule post : list tick) (stop : tick) (host : enumeration)
    (m : ProcessMonitor) (e : exn) :
  (time_sleep (update_interval m) = None ->
   (get_processes host = Raise e ->
      loop_body host m
      = (Ok tt,
         emit (Sleep (update_interval m))
           (logger_error (MsgMonitorLoopError e) m)))
   /\ fst (loop_body host m) = Ok tt
   /\ fst (_detect_changes (new_ProcessInfo <$> infos_read host) m) = Ok tt
   /\ count_sleeps (cycle_effects host m) = 1%nat
   /\ trace (cycle host m) = trace m ++ cycle_effects host m
   /\ (Forall (fun t => tick_stop t = false) schedule ->
       _monitor_loop schedule m
       = (Ok false, run_cycles (tick_host <$> schedule) m)
       /\ count_sleeps (trace (run_cycles (tick_host <$> schedule) m))
          = (count_sleeps (trace m) + length schedule)%nat
       /\ loop_errors (trace (run_cycles (tick_host <$> schedule) m))
          = loop_errors (trace m)
            ++ enumeration_errors (tick_host <$> schedule))
   /\ (Forall (fun t => tick_stop t = false) schedule ->
       tick_stop stop = true ->
       _monitor_loop (schedule ++ stop :: post) m
       = (Ok true, run_cycles (tick_host <$> schedule) m))
   /\ (fst (_monitor_loop schedule m) = Ok true
       <-> Exists (fun t => tick_stop t = true) schedule)
   /\ (forall e', fst (_monitor_loop schedule m) <> Raise e'))
  /\ (time_sleep (update_interval m) = Some e -> tick_stop stop = false ->
      _monitor_loop (stop :: post) m = (Raise e, cycle (tick_host stop) m)
      /\ count_sleeps (cycle_effects (tick_host stop) m) = 0%nat).
Proof.
  split; [|apply monitor_loop_dies].
  intros Hv. split.
  { intros H. unfold loop_body, cycle_try. rewrite H, sleep_eq.
    change (update_interval (logger_error _ m)) with (update_interval m).
    now rewrite Hv. }
  split; [rewrite loop_body_eq; now rewrite Hv|].
  split; [apply detect_changes_Ok|].
  split.
  { destruct (cycle_effects_counts host m 0%nat) as (_ & -> & _).
    now rewrite Hv. }
  split; [apply cycle_frame|].
  split.
  { intros H. split; [now apply monitor_loop_runs|].
    destruct (run_cycles_counts (tick_host <$> schedule) m Hv) as (Hs & He).
    rewrite Hs, He, length_fmap. auto. }
  split; [now apply monitor_loop_stops|].
  now apply monitor_loop_exit.
Qed.

Lemma monitor_loop_survives_witness :
  loop_body broken_host init
  = (Ok tt,
     emit (Sleep (update_interval init))
       (logger_error (MsgMonitorLoopError (OtherError "OSError")) init))
  /\ _monitor_loop [mkTick false broken_host; mkTick false []] init
     = (Ok false, run_cycles [broken_host; []] init)
  /\ count_sleeps (trace (run_cycles [broken_host; []] init)) = 2%nat
  /\ loop_errors (trace (run_cycles [broken_host; []] init))
     = [OtherError "OSError"]
  /\ _monitor_loop
       ([mkTick false broken_host; mkTick false []] ++ mkTick true [] :: []) init
     = (Ok true, run_cycles [broken_host; []] init).
Proof.
  destruct (monitor_loop_survives [mkTick false broken_host; mkTick false []]
              [] (mkTick true []) broken_host init (OtherError "OSError"))
    as (H & _).
  destruct (H eq_refl) as (H1 & _ & _ & _ & _ & H6 & H7 & _).
  split; [apply H1; reflexivity|].
  assert (Hs : Forall (fun t => tick_stop t = false)
                 [mkTick false broken_host; mkTick false []]).
  { apply Forall_cons; split; [reflexivity|].
    apply Forall_cons; split; [reflexivity|apply Forall_nil; exact I]. }
  destruct (H6 Hs) as (Ha & Hb & Hc).
  split; [exact Ha|]. split; [exact Hb|]. split; [exact Hc|].
  apply H7; [exact Hs|reflexivity].
Defined.

(** C6, as the claim states it, fails: on a monitor whose interval is
    minus one second, the cycle whose enumeration raises logs the error,
    but the sleep of the handler raises [ValueError] in its turn; the
    loop neither sleeps nor retries, and ends although the stop signal
    was never set. *)
Lemma monitor_loop_dies_on_negative_interval :
  _monitor_loop [mkTick false broken_host; mkTick false []]
    negative_interval_monitor
  = (Raise (OtherError "ValueError"),
     logger_error (MsgMonitorLoopError (OtherError "OSError"))
       negative_interval_monitor)
  /\ count_sleeps
       (trace (snd (_monitor_loop [mkTick false broken_host; mkTick false []]
                      negative_interval_monitor))) = 0%nat
  /\ fst (_monitor_loop [mkTick false broken_host; mkTick false []]
           negative_interval_monitor) <> Ok false.
Proof.
  split; [reflexivity|]. split; [reflexivity|]. discriminate.
Qed.

(** ** Distinct identifiers *)

(** C8: when the host yields each process identifier at most once (as
    [psutil.process_iter] does), the identifiers of the snapshot that
    [get_processes] returns are pairwise distinct; hence so are those of
    the snapshot that a cycle hands to the diff step and to every
    callback, and the cache built from it files each record of the
    snapshot under its pid. *)
Theorem get_processes_pids_distinct
    (host : enumeration) (ps : snapshot) (m : ProcessMonitor) :
  NoDup (info_pid <$> infos_read host) ->
  get_processes host = Ok ps ->
  NoDup (pid <$> ps)
  /\ (forall cb arg, (cb, arg) ∈ calls (cycle_effects host m) ->
      arg = ps /\ NoDup (pid <$> arg))
  /\ (forall r, r ∈ ps -> process_cache (cycle host m) !! pid r = Some r).
Proof.
  intros Hnd H.
  assert (Hps : NoDup (pid <$> ps)).
  { apply get_processes_Ok in H as ->.
    rewrite <- list_fmap_compose. exact Hnd. }
  split; [exact Hps|]. split.
  - intros cb arg Hin. rewrite cycle_effects_calls, H in Hin.
    apply list_elem_of_fmap in Hin as (c & [= _ ->] & _). auto.
  - intros r Hr. rewrite cycle_eq, H. simpl.
    rewrite dict_by_pid_lookup.
    clear H Hnd. induction ps as [|q ps IH] using rev_ind.
    + inversion Hr.
    + rewrite fmap_app in Hps. apply NoDup_app in Hps as (Hps1 & Hps2 & _).
      rewrite filter_app, filter_cons, filter_nil.
      apply elem_of_app in Hr as [Hr|Hr].
      * destruct (decide (pid q = pid r)) as [Heq|Hne].
        { exfalso. apply (Hps2 (pid r)).
          - apply list_elem_of_fmap. exists r. auto.
          - simpl. rewrite Heq. left. }
        rewrite app_nil_r. now apply IH.
      * apply list_elem_of_singleton in Hr as ->.
        rewrite decide_True by reflexivity. apply last_snoc.
Qed.

Lemma get_processes_pids_distinct_witness :
  NoDup (pid <$> [new_ProcessInfo (info_of 1 "init");
                  new_ProcessInfo (info_of 7 "sshd")]).
Proof.
  apply (get_processes_pids_distinct
           [Ok (info_of 1 "init"); Raise NoSuchProcess; Ok (info_of 7 "sshd")]
           [new_ProcessInfo (info_of 1 "init"); new_ProcessInfo (info_of 7 "sshd")]
           init).
  - simpl. apply NoDup_cons. split; [|apply NoDup_singleton].
    intros H%list_elem_of_singleton. discriminate H.
  - reflexivity.
Defined.

(** * Further properties of the monitor *)

(** ** Strings *)

Lemma prefix_append (a s : string) :
  String.prefix a s = true <-> exists q, s = (a ++ q)%string.
Proof.
  revert s. induction a as [|c a IH]; intros s; simpl.
  - destruct s; (split; [intros _; eexists; reflexivity|reflexivity]).
  - destruct s as [|d s].
    + split; [discriminate|]. intros [q H]. discriminate H.
    + change (String.prefix (String c a) (String d s))
        with (if ascii_dec c d then String.prefix a s else false).
      destruct (ascii_dec c d) as [->|Hne].
      * split.
        { intros H. apply IH in H as [q ->]. now exists q. }
        { intros [q H]. injection H as ->. apply IH. now exists q. }
      * split; [discriminate|]. intros [q H]. injection H as H _.
        congruence.
Qed.

Lemma contains_unfold (a s : string) :
  contains a s
  = if String.prefix a s then true
    else match s with
         | EmptyString => false
         | String _ rest => contains a rest
         end.
Proof. destruct s; reflexivity. Qed.

Lemma contains_occurs (a s : string) :
  contains a s = true <-> exists p q, s = (p ++ a ++ q)%string.
Proof.
  induction s as [|d s IH]; rewrite contains_unfold.
  - destruct (String.prefix a "") eqn:Hp.
    + split; [|reflexivity]. intros _.
      apply prefix_append in Hp as [q Hq]. exists "", q. exact Hq.
    + split; [discriminate|]. intros (p & q & H).
      destruct p; simpl in H; [|discriminate H].
      assert (Ht : String.prefix a "" = true)
        by (apply prefix_append; now exists q).
      congruence.
  - destruct (String.prefix a (String d s)) eqn:Hp.
    + split; [|reflexivity]. intros _.
      apply prefix_append in Hp as [q Hq]. exists "", q. exact Hq.
    + rewrite IH. split.
      * intros (p & q & H). exists (String d p), q. simpl. now rewrite H.
      * intros (p & q & H). destruct p as [|c p]; simpl in H.
        { assert (Ht : String.prefix a (String d s) = true)
            by (apply prefix_append; now exists q).
          congruence. }
        injection H as _ H. now exists p, q.
Qed.

Lemma string_append_assoc (a b c : string) :
  ((a ++ b) ++ c = a ++ (b ++ c))%string.
Proof.
  induction a as [|x a IH]; [reflexivity|].
  change (String x ((a ++ b) ++ c) = String x (a ++ (b ++ c)))%string.
  f_equal. exact IH.
Qed.

Lemma string_append_nil_r (a : string) : (a ++ "")%string = a.
Proof.
  induction a as [|x a IH]; [reflexivity|].
  change (String x (a ++ "") = String x a)%string. f_equal. exact IH.
Qed.

Lemma contains_refl (s : string) : contains s s = true.
Proof.
  apply contains_occurs. exists "", "". simpl. now rewrite string_append_nil_r.
Qed.

Lemma contains_empty (s : string) : contains "" s = true.
Proof. apply contains_occurs. exists "", s. reflexivity. Qed.

Lemma contains_trans (a b c : string) :
  contains a b = true -> contains b c = true -> contains a c = true.
Proof.
  rewrite !contains_occurs. intros (p & q & ->) (p' & q' & ->).
  exists (p' ++ p)%string, (q ++ q')%string.
  now rewrite !string_append_assoc.
Qed.

Lemma lower_char_idempotent (c : ascii) : lower_char (lower_char c) = lower_char c.
Proof.
  destruct c as [[] [] [] [] [] [] [] []]; vm_compute; reflexivity.
Qed.

Lemma lower_idempotent (s : string) : lower (lower s) = lower s.
Proof.
  induction s as [|c s IH]; simpl; [reflexivity|].
  now rewrite lower_char_idempotent, IH.
Qed.

(** The decimal form of an integer has no letter to lower. *)
Lemma lower_str (n : Z) : lower (str n) = str n.
Proof.
  assert (Hu : forall d, lower (NilZero.string_of_uint d) = NilZero.string_of_uint d).
  { intros d. unfold NilZero.string_of_uint.
    assert (Hd : forall u, lower (NilEmpty.string_of_uint u)
                           = NilEmpty.string_of_uint u).
    { induction u; simpl; try rewrite IHu; reflexivity. }
    destruct d; simpl; try rewrite Hd; reflexivity. }
  unfold str, NilZero.string_of_int.
  destruct (Z.to_int n) as [d|d]; [apply Hu|].
  change (lower (String "-" ?s)) with (String "-" (lower s)).
  now rewrite Hu.
Qed.

(** ** Registering and removing callbacks *)

Lemma list_remove_first_absent (i : nat) (cbs : list callback) :
  count_registered i cbs = 0%nat -> list_remove_first i cbs = cbs.
Proof.
  unfold count_registered. induction cbs as [|cb cbs IH]; simpl; [reflexivity|].
  destruct (Nat.eqb (cb_id cb) i); simpl; [discriminate|].
  intros H. now rewrite IH.
Qed.

Lemma existsb_registered (i : nat) (cbs : list callback) :
  existsb (fun c => Nat.eqb (cb_id c) i) cbs
  = negb (Nat.eqb (count_registered i cbs) 0).
Proof.
  unfold count_registered. induction cbs as [|cb cbs IH]; simpl; [reflexivity|].
  destruct (Nat.eqb (cb_id cb) i); simpl; [reflexivity|exact IH].
Qed.

Lemma list_remove_first_snoc (cb : callback) (cbs : list callback) :
  count_registered (cb_id cb) cbs = 0%nat ->
  list_remove_first (cb_id cb) (cbs ++ [cb]) = cbs.
Proof.
  unfold count_registered. induction cbs as [|c cbs IH]; simpl.
  - now rewrite Nat.eqb_refl.
  - destruct (Nat.eqb (cb_id c) (cb_id cb)); simpl; [discriminate|].
    intros H. now rewrite IH.
Qed.

Lemma list_remove_first_count (i j : nat) (cbs : list callback) :
  count_registered i cbs <> 0%nat ->
  (count_registered j (list_remove_first i cbs)
   + (if Nat.eqb j i then 1 else 0))%nat
  = count_registered j cbs.
Proof.
  unfold count_registered. induction cbs as [|cb cbs IH]; simpl; [congruence|].
  destruct (Nat.eqb (cb_id cb) i) eqn:Hi; simpl.
  - intros _. apply Nat.eqb_eq in Hi. rewrite Hi.
    rewrite (Nat.eqb_sym i j). destruct (Nat.eqb j i); simpl; lia.
  - intros H. specialize (IH H).
    destruct (Nat.eqb (cb_id cb) j) eqn:Hj; simpl; [|exact IH].
    destruct (Nat.eqb j i) eqn:Hji; [|lia].
    apply Nat.eqb_eq in Hj, Hji. apply Nat.eqb_neq in Hi. congruence.
Qed.

Lemma list_remove_first_sublist (i : nat) (cbs : list callback) :
  sublist (list_remove_first i cbs) cbs.
Proof.
  induction cbs as [|cb cbs IH]; simpl; [constructor|].
  destruct (Nat.eqb (cb_id cb) i).
  - now apply sublist_cons.
  - now apply sublist_skip.
Qed.

(** X1: registering a callback that is not yet registered and removing
    it again gives the monitor back as it was. *)
Theorem remove_callback_add_callback (cb : callback) (m : ProcessMonitor) :
  count_registered (cb_id cb) (callbacks m) = 0%nat ->
  remove_callback cb (add_callback cb m) = m.
Proof.
  intros H. unfold remove_callback, add_callback. simpl.
  rewrite existsb_registered. unfold count_registered.
  rewrite List.filter_app, length_app. simpl. rewrite Nat.eqb_refl. simpl.
  replace (Nat.eqb _ 0) with false by (symmetry; apply Nat.eqb_neq; lia).
  simpl. rewrite (list_remove_first_snoc cb (callbacks m) H).
  now destruct m.
Qed.

Lemma remove_callback_add_callback_witness :
  remove_callback succeeding_callback
    (add_callback succeeding_callback (add_callback failing_callback init))
  = add_callback failing_callback init.
Proof.
  apply (remove_callback_add_callback succeeding_callback
           (add_callback failing_callback init)).
  reflexivity.
Defined.

Lemma list_remove_first_split (i : nat) (pre post : list callback) (c : callback) :
  count_registered i pre = 0%nat -> cb_id c = i ->
  list_remove_first i (pre ++ c :: post) = pre ++ post.
Proof.
  unfold count_registered. intros Hpre Hc.
  induction pre as [|x pre IH]; simpl in *.
  - now rewrite Hc, Nat.eqb_refl.
  - destruct (Nat.eqb (cb_id x) i); simpl in *; [discriminate|].
    now rewrite IH.
Qed.

(** X2: [remove_callback] takes away one registration of the callback,
    the first, and nothing else: the callbacks before that registration
    and those after it stay, in their order; a callback registered twice
    stays registered once, at its later place, and is still invoked by
    every dispatch; and removing a callback that is not registered
    changes nothing and raises nothing. *)
Theorem remove_callback_once
    (cb : callback) (m : ProcessMonitor) (j : nat) (processes : snapshot) :
  (count_registered (cb_id cb) (callbacks m) = 0%nat -> remove_callback cb m = m)
  /\ (forall pre c post,
        callbacks m = pre ++ c :: post -> cb_id c = cb_id cb ->
        count_registered (cb_id cb) pre = 0%nat ->
        callbacks (remove_callback cb m) = pre ++ post)
  /\ (count_registered (cb_id cb) (callbacks m) <> 0%nat ->
      (count_registered j (callbacks (remove_callback cb m))
       + (if Nat.eqb j (cb_id cb) then 1 else 0))%nat
      = count_registered j (callbacks m)
      /\ (count_calls j (notify_effects (callbacks (remove_callback cb m)) processes)
          + (if Nat.eqb j (cb_id cb) then 1 else 0))%nat
         = count_calls j (notify_effects (callbacks m) processes))
  /\ sublist (callbacks (remove_callback cb m)) (callbacks m)
  /\ trace (remove_callback cb m) = trace m
  /\ process_cache (remove_callback cb m) = process_cache m.
Proof.
  assert (Hfirst : forall pre c post,
            callbacks m = pre ++ c :: post -> cb_id c = cb_id cb ->
            count_registered (cb_id cb) pre = 0%nat ->
            callbacks (remove_callback cb m) = pre ++ post).
  { intros pre c post Hm Hc Hpre. unfold remove_callback.
    rewrite existsb_registered, Hm. unfold count_registered.
    rewrite List.filter_app, length_app. simpl. rewrite Hc, Nat.eqb_refl. simpl.
    replace (Nat.eqb _ 0) with false by (symmetry; apply Nat.eqb_neq; lia).
    simpl. now apply list_remove_first_split. }
  split; [|split; [exact Hfirst|]]; clear Hfirst;
    unfold remove_callback; rewrite existsb_registered;
    destruct (Nat.eqb (count_registered (cb_id cb) (callbacks m)) 0) eqn:Hc;
    simpl.
  - reflexivity.
  - apply Nat.eqb_neq in Hc. congruence.
  - apply Nat.eqb_eq in Hc. split; [congruence|]. auto.
  - apply Nat.eqb_neq in Hc. split.
    { intros _. rewrite !notify_effects_count.
      split; apply (list_remove_first_count (cb_id cb) j (callbacks m) Hc). }
    split; [apply list_remove_first_sublist|]. auto.
Qed.

Lemma remove_callback_once_witness :
  remove_callback succeeding_callback (add_callback failing_callback init)
  = add_callback failing_callback init
  /\ callbacks
       (remove_callback succeeding_callback
          (register [succeeding_callback; failing_callback;
                     succeeding_callback] init))
     = [failing_callback; succeeding_callback]
  /\ (count_registered 1
        (callbacks
           (remove_callback succeeding_callback
              (register [succeeding_callback; failing_callback;
                         succeeding_callback] init)))
      + 1)%nat
     = count_registered 1
         (callbacks (register [succeeding_callback; failing_callback;
                               succeeding_callback] init)).
Proof.
  split; [|split].
  - destruct (remove_callback_once succeeding_callback
                (add_callback failing_callback init) 1%nat []) as (H & _).
    apply H. reflexivity.
  - destruct (remove_callback_once succeeding_callback
                (register [succeeding_callback; failing_callback;
                           succeeding_callback] init) 1%nat [])
      as (_ & H & _).
    apply (H [] succeeding_callback [failing_callback; succeeding_callback]);
      reflexivity.
  - destruct (remove_callback_once succeeding_callback
                (register [succeeding_callback; failing_callback;
                           succeeding_callback] init) 1%nat [])
      as (_ & _ & H & _).
    apply H. simpl. discriminate.
Defined.

(** ** Search by name *)

(** X3: [get_process_by_name] enumerates the host once and fails exactly
    when the enumeration does, with its error; otherwise it returns,
    in the order of the enumeration, exactly the records whose
    lower-cased name contains the lower-cased term.  The empty term
    selects every record, and a term and its lower-case form select the
    same records. *)
Theorem get_process_by_name_filter (host : enumeration) (term : string) :
  match get_processes host with
  | Raise e => get_process_by_name host term = Raise e
  | Ok processes =>
      exists found : snapshot,
        get_process_by_name host term = Ok found
        /\ sublist found processes
        /\ (forall r, r ∈ found <->
              r ∈ processes /\ contains (lower term) (lower (name r)) = true)
  end
  /\ get_process_by_name host "" = get_processes host
  /\ get_process_by_name host (lower term) = get_process_by_name host term.
Proof.
  unfold get_process_by_name.
  destruct (get_processes host) as [processes|e].
  - split.
    { eexists. split; [reflexivity|]. split.
      - induction processes as [|p ps IH]; simpl; [constructor|].
        destruct (contains (lower term) (lower (name p)));
          [now apply sublist_skip|now apply sublist_cons].
      - intros r. rewrite !list_elem_of_In, List.filter_In. tauto. }
    split.
    { f_equal. change (lower "") with "".
      induction processes as [|p ps IH]; [reflexivity|].
      change (List.filter ?f (p :: ps))
        with (if f p then p :: List.filter f ps else List.filter f ps).
      cbv beta. rewrite contains_empty. now rewrite IH. }
    now rewrite lower_idempotent.
  - auto.
Qed.

(** ** Change detection over several cycles *)

Lemma diff_lines_same (processes : snapshot) :
  diff_lines processes (dict_by_pid processes) = [].
Proof.
  unfold diff_lines.
  rewrite difference_diag_L, elements_empty. reflexivity.
Qed.

Lemma detect_changes_trace (current_processes : snapshot) (m : ProcessMonitor) :
  trace (snd (_detect_changes current_processes m))
  = trace m ++ diff_lines current_processes (process_cache m)
  /\ process_cache (snd (_detect_changes current_processes m))
     = dict_by_pid current_processes.
Proof. rewrite detect_changes_eq. split; reflexivity. Qed.

(** X4: what a diff step logs depends on the previous snapshot only: after
    a step on S1, a step on S2 writes the lines for the difference
    between S2 and the dictionary of S1, whatever the cache was before;
    and a step on the same snapshot again writes nothing and leaves the
    cache as it is. *)
Theorem detect_changes_twice (s1 s2 : snapshot) (m : ProcessMonitor) :
  trace (snd (_detect_changes s2 (snd (_detect_changes s1 m))))
  = trace (snd (_detect_changes s1 m)) ++ diff_lines s2 (dict_by_pid s1)
  /\ trace (snd (_detect_changes s1 (snd (_detect_changes s1 m))))
     = trace (snd (_detect_changes s1 m))
  /\ process_cache (snd (_detect_changes s1 (snd (_detect_changes s1 m))))
     = process_cache (snd (_detect_changes s1 m)).
Proof.
  destruct (detect_changes_trace s1 m) as (Ht & Hc).
  destruct (detect_changes_trace s2 (snd (_detect_changes s1 m))) as (Ht2 & _).
  destruct (detect_changes_trace s1 (snd (_detect_changes s1 m))) as (Ht1 & Hc1).
  rewrite Hc in Ht2, Ht1. rewrite diff_lines_same, app_nil_r in Ht1.
  split; [exact Ht2|]. split; [exact Ht1|]. now rewrite Hc1, Hc.
Qed.

Lemma run_cycles_cache (hosts : list enumeration) (m : ProcessMonitor)
    (acc : option snapshot) (c0 : gmap Z ProcessInfo) :
  process_cache m = match acc with Some ps => dict_by_pid ps | None => c0 end ->
  process_cache (run_cycles hosts m)
  = match last_snapshot_from acc hosts with
    | Some ps => dict_by_pid ps
    | None => c0
    end.
Proof.
  revert m acc. induction hosts as [|host hosts IH]; intros m acc Hm; simpl.
  - exact Hm.
  - apply IH. rewrite cycle_eq.
    destruct (get_processes host) as [ps|e]; [reflexivity|exact Hm].
Qed.

(** X5: a cycle whose enumeration raises leaves the cache as it was, and
    a cycle that enumerates its host replaces it; so after any run of
    cycles the cache is the dictionary of the last snapshot that could
    be taken, and the cache from before the run when none could. *)
Theorem cache_after_cycles
    (hosts : list enumeration) (host : enumeration) (m : ProcessMonitor) :
  process_cache (cycle host m)
  = match get_processes host with
    | Ok processes => dict_by_pid processes
    | Raise _ => process_cache m
    end
  /\ process_cache (run_cycles hosts m)
     = match last_snapshot hosts with
       | Some processes => dict_by_pid processes
       | None => process_cache m
       end.
Proof.
  split.
  - rewrite cycle_eq. destruct (get_processes host); reflexivity.
  - apply (run_cycles_cache hosts m None (process_cache m)). reflexivity.
Qed.

(** ** What [kill_process] and [save_snapshot] leave alone *)

(** X6: a call of [kill_process] that returns writes exactly one log
    line, at level INFO when it returns [True] and at level ERROR when
    it returns [False]; one that raises writes none; and no call
    changes anything else of the monitor (cache, callbacks, lifecycle). *)
Theorem kill_process_one_line (host : kill_host) (p : Z) (m : ProcessMonitor) :
  same_but_trace m (snd (kill_process host p m))
  /\ match fst (kill_process host p m) with
     | Ok true =>
         exists nm, trace (snd (kill_process host p m))
                    = trace m ++ [Log INFO (MsgKilled p nm)]
     | Ok false =>
         exists e, trace (snd (kill_process host p m))
                   = trace m ++ [Log ERROR (MsgKillFailed p e)]
     | Raise _ => snd (kill_process host p m) = m
     end.
Proof.
  unfold kill_process. destruct (kill_process_try host p) as [nm|e]; simpl.
  - split; [repeat split|]. now exists nm.
  - destruct (is_kill_failure e); simpl.
    + split; [repeat split|]. now exists e.
    + split; [repeat split|reflexivity].
Qed.

(** X8: a [save_snapshot] that raises has written no log line and left
    the monitor as it was.  When the enumeration failed or the file
    could not be opened, the files are as they were too; when the
    writing broke off after the file was opened, the file holds a torn
    document in place of whatever it held before.  A call that succeeds
    writes the whole document and adds the one "Snapshot saved" line.
    No call touches another path, nor the cache, the callbacks or the
    lifecycle state. *)
Theorem save_snapshot_frame
    (host : save_host) (filename : string) (m : ProcessMonitor) (fs : files) :
  same_but_trace m (snd (fst (save_snapshot host filename m fs)))
  /\ (forall other, other <> filename ->
      snd (save_snapshot host filename m fs) !! other = fs !! other)
  /\ match fst (fst (save_snapshot host filename m fs)) with
     | Raise e =>
         snd (fst (save_snapshot host filename m fs)) = m
         /\ ((get_processes (save_enumeration host) = Raise e
              \/ save_open host = Some e)
             /\ snd (save_snapshot host filename m fs) = fs
             \/ exists ps,
                  get_processes (save_enumeration host) = Ok ps
                  /\ save_open host = None
                  /\ save_write host = Some e
                  /\ snd (save_snapshot host filename m fs)
                     = <[filename := Torn (snapshot_document (save_now host) ps)]>
                         fs)
     | Ok _ =>
         trace (snd (fst (save_snapshot host filename m fs)))
         = trace m ++ [Log INFO (MsgSnapshotSaved filename)]
         /\ exists ps,
              get_processes (save_enumeration host) = Ok ps
              /\ snd (save_snapshot host filename m fs) !! filename
                 = Some (Whole (snapshot_document (save_now host) ps))
     end.
Proof.
  unfold save_snapshot.
  destruct (get_processes (save_enumeration host)) as [ps|e]; simpl.
  - destruct (save_open host) as [e|]; simpl.
    + split; [repeat split|]. split; [reflexivity|]. auto.
    + destruct (save_write host) as [e|]; simpl.
      * split; [repeat split|]. split.
        { intros other Hne. now apply lookup_insert_ne. }
        split; [reflexivity|]. right. exists ps. auto.
      * split; [repeat split|]. split.
        { intros other Hne. now apply lookup_insert_ne. }
        split; [reflexivity|]. exists ps. split; [reflexivity|].
        apply lookup_insert_eq.
  - split; [repeat split|]. split; [reflexivity|]. auto.
Qed.

(** ** The shared logger *)

(** X9: the logger is shared by every monitor of the interpreter and
    gets a file handler only while it has none: once it has one,
    [_setup_logger] opens nothing, cannot fail and leaves the handlers
    as they are, so of the monitors constructed one after the other only
    the first decides the log file, whatever [log_file] the others are
    given. *)
Theorem setup_logger_shared
    (first log_file : string) (others : list string)
    (open_error : option exn) (handlers : list string) :
  (handlers <> [] -> _setup_logger open_error log_file handlers = Ok handlers)
  /\ (handlers <> [] -> setup_loggers others handlers = handlers)
  /\ setup_loggers (first :: others) [] = [first]
  /\ (forall e, _setup_logger (Some e) log_file [] = Raise e).
Proof.
  assert (H1 : forall hs, hs <> [] -> _setup_logger open_error log_file hs = Ok hs).
  { intros [|h hs] Hne; [congruence|reflexivity]. }
  assert (H2 : forall fs hs, hs <> [] -> setup_loggers fs hs = hs).
  { induction fs as [|f fs IH]; intros hs Hne; [reflexivity|].
    destruct hs as [|h hs]; [congruence|]. simpl. now apply IH. }
  split; [apply H1|]. split; [apply H2|]. split; [|reflexivity].
  simpl. now apply H2.
Qed.

Lemma setup_logger_shared_witness :
  _setup_logger (Some (OtherError "PermissionError")) "second.log"
    ["process_spy.log"]
  = Ok ["process_spy.log"]
  /\ setup_loggers ["second.log"; "third.log"] ["process_spy.log"]
     = ["process_spy.log"].
Proof.
  destruct (setup_logger_shared "process_spy.log" "second.log"
              ["second.log"; "third.log"] (Some (OtherError "PermissionError"))
              ["process_spy.log"]) as (H1 & H2 & _).
  split; [apply H1|apply H2]; discriminate.
Defined.

(** X7: [kill_process] returns [True] exactly when the process was found,
    took the request, was seen to exit within the 5 seconds and, after
    that, still gave its name for the log line; when the host no longer
    knows the exited process by then, the call logs a failure and
    returns [False] although the process is gone. *)
Theorem kill_process_needs_name
    (host : kill_host) (p : Z) (m m' : ProcessMonitor) :
  (kill_process host p m = (Ok true, m') <->
     host_Process host p = None /\ host_terminate host p = None
     /\ host_wait host p 5 = None
     /\ exists nm, host_name host p = Ok nm
                   /\ m' = logger_info (MsgKilled p nm) m)
  /\ (host_Process host p = None -> host_terminate host p = None ->
      host_wait host p 5 = None -> host_name host p = Raise NoSuchProcess ->
      kill_process host p m
      = (Ok false, logger_error (MsgKillFailed p NoSuchProcess) m)).
Proof.
  split.
  - split.
    + intros H. destruct (kill_process_true host p m m' H) as (H1 & H2 & H3).
      repeat (split; [assumption|]).
      unfold kill_process, kill_process_try in H. rewrite H1, H2, H3 in H.
      destruct (host_name host p) as [nm|e].
      * injection H as <-. now exists nm.
      * destruct (is_kill_failure e); discriminate H.
    + intros (H1 & H2 & H3 & nm & H4 & ->).
      unfold kill_process, kill_process_try. now rewrite H1, H2, H3, H4.
  - intros H1 H2 H3 H4. unfold kill_process, kill_process_try.
    now rewrite H1, H2, H3, H4.
Qed.

Lemma kill_process_needs_name_witness :
  kill_process forgetful_host 42 init
  = (Ok false, logger_error (MsgKillFailed 42 NoSuchProcess) init).
Proof.
  destruct (kill_process_needs_name forgetful_host 42 init init) as (_ & H).
  apply H; reflexivity.
Defined.

(** * Properties of the window *)

Lemma lower_append (a b : string) :
  lower (a ++ b)%string = (lower a ++ lower b)%string.
Proof.
  induction a as [|c a IH]; [reflexivity|].
  change (String (lower_char c) (lower (a ++ b)%string)
          = String (lower_char c) (lower a ++ lower b)%string).
  f_equal. exact IH.
Qed.

Lemma lower_contains (a b : string) :
  contains a b = true -> contains (lower a) (lower b) = true.
Proof.
  rewrite !contains_occurs. intros (p & q & ->).
  exists (lower p), (lower q). now rewrite !lower_append.
Qed.

Lemma contains_in_empty (t : string) : contains t "" = true -> t = "".
Proof.
  intros H. apply contains_occurs in H as (p & q & H).
  destruct p; [|discriminate H]. destruct t; [reflexivity|discriminate H].
Qed.

Lemma matches_mono (t1 t2 : string) (p : ProcessInfo) :
  contains t1 t2 = true -> Gui.matches t2 p = true -> Gui.matches t1 p = true.
Proof.
  intros Ht. unfold Gui.matches. rewrite !orb_true_iff, !existsb_exists.
  intros [[H|H]|(cmd & Hin & H)].
  - left. left. exact (contains_trans _ _ _ Ht H).
  - left. right. exact (contains_trans _ _ _ Ht H).
  - right. exists cmd. split; [exact Hin|]. exact (contains_trans _ _ _ Ht H).
Qed.

Lemma filter_sublist_mono {A : Type} (f g : A -> bool) (l : list A) :
  (forall x, f x = true -> g x = true) ->
  sublist (List.filter f l) (List.filter g l).
Proof.
  intros Hfg. induction l as [|x l IH]; simpl; [constructor|].
  destruct (f x) eqn:Hf.
  - rewrite (Hfg x Hf). now apply sublist_skip.
  - destruct (g x); [now apply sublist_cons|exact IH].
Qed.

Lemma filter_sublist {A : Type} (f : A -> bool) (l : list A) :
  sublist (List.filter f l) l.
Proof.
  induction l as [|x l IH]; simpl; [constructor|].
  destruct (f x); [now apply sublist_skip|now apply sublist_cons].
Qed.

Lemma on_search_change_filtered (value : string) (a : Gui.ProcessSpyApp) :
  Gui.filtered_processes (Gui.on_search_change value a)
  = match lower value with
    | EmptyString => Gui.process_list a
    | _ => List.filter (Gui.matches (lower value)) (Gui.process_list a)
    end
  /\ Gui.process_list (Gui.on_search_change value a) = Gui.process_list a
  /\ Gui.search_term (Gui.on_search_change value a) = lower value.
Proof. repeat split. Qed.

(** X10: typing more narrows the table: when the text typed before occurs,
    letter case aside, in the text typed now, the processes shown now are
    among those shown before, in the same order. *)
Theorem search_narrows (v1 v2 : string) (a : Gui.ProcessSpyApp) :
  contains (lower v1) (lower v2) = true ->
  sublist (Gui.filtered_processes (Gui.on_search_change v2 a))
          (Gui.filtered_processes (Gui.on_search_change v1 a)).
Proof.
  intros H.
  destruct (on_search_change_filtered v1 a) as (-> & _).
  destruct (on_search_change_filtered v2 a) as (-> & _).
  destruct (lower v1) as [|c1 t1] eqn:H1.
  - destruct (lower v2); [reflexivity|apply filter_sublist].
  - destruct (lower v2) as [|c2 t2] eqn:H2.
    + apply contains_in_empty in H. discriminate H.
    + apply filter_sublist_mono. intros p. now apply matches_mono.
Qed.

Lemma search_narrows_witness :
  sublist
    (Gui.filtered_processes
       (Gui.on_search_change "SSHD"
          (Gui.new_app [Ok (info_of 1 "init"); Ok (info_of 7 "sshd")]
             succeeding_callback)))
    (Gui.filtered_processes
       (Gui.on_search_change "sh"
          (Gui.new_app [Ok (info_of 1 "init"); Ok (info_of 7 "sshd")]
             succeeding_callback))).
Proof.
  apply (search_narrows "sh" "SSHD"). reflexivity.
Defined.

(** X11: a listed process is always found by its name and by any of its
    command-line arguments, typed in any letter case, and by its pid
    typed in decimal. *)
Theorem search_finds (v : string) (p : ProcessInfo) (a : Gui.ProcessSpyApp) :
  p ∈ Gui.process_list a ->
  lower v = lower (name p)
  \/ v = str (pid p)
  \/ (exists cmd, cmd ∈ cmdline p /\ lower v = lower cmd) ->
  p ∈ Gui.filtered_processes (Gui.on_search_change v a).
Proof.
  intros Hin Hv.
  destruct (on_search_change_filtered v a) as (-> & _).
  destruct (lower v) as [|c t] eqn:Hl; [exact Hin|]. rewrite <- Hl.
  apply list_elem_of_In, List.filter_In. split; [now apply list_elem_of_In|].
  unfold Gui.matches. rewrite !orb_true_iff, existsb_exists.
  destruct Hv as [Hv|[Hv|(cmd & Hc & Hv)]].
  - left. left. rewrite Hl, Hv. apply contains_refl.
  - left. right. rewrite Hv, lower_str. apply contains_refl.
  - right. exists cmd. split; [now apply list_elem_of_In|].
    rewrite Hl, Hv. apply contains_refl.
Qed.

Lemma search_finds_witness :
  new_ProcessInfo (info_of 7 "sshd")
  ∈ Gui.filtered_processes
      (Gui.on_search_change "7"
         (Gui.new_app [Ok (info_of 1 "init"); Ok (info_of 7 "sshd")]
            succeeding_callback)).
Proof.
  apply (search_finds "7" (new_ProcessInfo (info_of 7 "sshd"))).
  - right. left.
  - right. left. reflexivity.
Defined.

(** ** The table and the lifecycle flag, along any use of the window *)

Lemma table_consistent_ext (a a' : Gui.ProcessSpyApp) :
  Gui.process_list a' = Gui.process_list a ->
  Gui.filtered_processes a' = Gui.filtered_processes a ->
  Gui.search_term a' = Gui.search_term a ->
  Gui.rows a' = Gui.rows a ->
  Gui.process_count_text a' = Gui.process_count_text a ->
  Gui.table_consistent a -> Gui.table_consistent a'.
Proof.
  unfold Gui.table_consistent. intros -> -> -> -> ->. auto.
Qed.

Ltac table_unchanged a :=
  apply (table_consistent_ext a); [reflexivity..|assumption].

Lemma filter_processes_consistent (a : Gui.ProcessSpyApp) :
  Gui.table_consistent (Gui.filter_processes a).
Proof.
  unfold Gui.table_consistent. split; [reflexivity|]. split; [reflexivity|].
  simpl. now rewrite length_fmap.
Qed.

Lemma refresh_processes_consistent (host : enumeration) (a : Gui.ProcessSpyApp) :
  Gui.table_consistent a -> Gui.table_consistent (Gui.refresh_processes host a).
Proof.
  intros H. unfold Gui.refresh_processes.
  destruct (get_processes host) as [ps|ex]; [|table_unchanged a].
  pose proof (filter_processes_consistent (Gui.set_process_list ps a)) as Hf.
  destruct (Gui.is_monitoring _); [exact Hf|].
  table_unchanged (Gui.filter_processes (Gui.set_process_list ps a)).
Qed.

Lemma handle_table_consistent (a : Gui.ProcessSpyApp) (ev : Gui.event) :
  Gui.table_consistent a -> Gui.table_consistent (Gui.handle a ev).
Proof.
  intros H. destruct ev as [v|j|host|ps|clock|p|khost host d p|d|stamp host fs];
    simpl.
  - apply filter_processes_consistent.
  - unfold Gui.toggle_monitoring.
    destruct (Gui.is_monitoring a); table_unchanged a.
  - now apply refresh_processes_consistent.
  - pose proof (filter_processes_consistent (Gui.set_process_list ps a)) as Hf.
    table_unchanged (Gui.filter_processes (Gui.set_process_list ps a)).
  - table_unchanged a.
  - table_unchanged a.
  - unfold Gui.confirm_kill.
    destruct (kill_process khost p (Gui.monitor a)) as [[[|]|ex] m']; simpl;
      [| table_unchanged a | exact H].
    assert (H1 : Gui.table_consistent
                   (Gui.refresh_processes host
                      (Gui.set_status (Gui.ProcessKilled p, Gui.GREEN)
                         (Gui.set_monitor m' a)))).
    { apply refresh_processes_consistent. table_unchanged a. }
    table_unchanged
      (Gui.refresh_processes host
         (Gui.set_status (Gui.ProcessKilled p, Gui.GREEN) (Gui.set_monitor m' a))).
  - table_unchanged a.
  - unfold Gui.save_snapshot.
    destruct (save_snapshot host _ (Gui.monitor a) fs) as [[[u|ex] m'] fs'];
      simpl; table_unchanged a.
Qed.

(** X12: whatever the user and the monitor do to the window (searches,
    refreshes, monitor updates, start and stop, kill dialogs, snapshots,
    with hosts that fail or not), the table shows exactly the processes
    of the current list that match the current search term, one row
    each in list order, and the count label shows the number of rows. *)
Theorem table_always_consistent
    (host : enumeration) (cb : callback) (evs : list Gui.event) :
  Gui.table_consistent (Gui.handle_all evs (Gui.new_app host cb)).
Proof.
  assert (H0 : Gui.table_consistent (Gui.new_app host cb)).
  { assert (H : Gui.table_consistent (Gui.refresh_processes host Gui.blank)).
    { apply refresh_processes_consistent. repeat split. }
    table_unchanged (Gui.refresh_processes host Gui.blank). }
  unfold Gui.handle_all. revert H0. generalize (Gui.new_app host cb).
  induction evs as [|ev evs IH]; intros a Ha; [exact Ha|].
  simpl. apply IH. now apply handle_table_consistent.
Qed.

Lemma kill_process_monitoring (host : kill_host) (p : Z) (m : ProcessMonitor) :
  monitoring (snd (kill_process host p m)) = monitoring m.
Proof.
  unfold kill_process. destruct (kill_process_try host p) as [nm|e];
    [reflexivity|]. destruct (is_kill_failure e); reflexivity.
Qed.

Lemma save_snapshot_monitoring
    (host : save_host) (filename : string) (m : ProcessMonitor) (fs : files) :
  monitoring (snd (fst (save_snapshot host filename m fs))) = monitoring m.
Proof.
  unfold save_snapshot.
  destruct (get_processes (save_enumeration host)); [|reflexivity].
  destruct (save_open host); [reflexivity|].
  destruct (save_write host); reflexivity.
Qed.

Lemma lifecycle_consistent_ext (a a' : Gui.ProcessSpyApp) :
  Gui.is_monitoring a' = Gui.is_monitoring a ->
  monitoring (Gui.monitor a') = monitoring (Gui.monitor a) ->
  Gui.start_stop_btn a' = Gui.start_stop_btn a ->
  Gui.lifecycle_consistent a -> Gui.lifecycle_consistent a'.
Proof.
  unfold Gui.lifecycle_consistent. intros -> -> ->. auto.
Qed.

Ltac lifecycle_unchanged a :=
  apply (lifecycle_consistent_ext a); [reflexivity..|assumption].

Lemma refresh_processes_lifecycle (host : enumeration) (a : Gui.ProcessSpyApp) :
  Gui.lifecycle_consistent a ->
  Gui.lifecycle_consistent (Gui.refresh_processes host a).
Proof.
  intros H. unfold Gui.refresh_processes.
  destruct (get_processes host) as [ps|ex]; [|lifecycle_unchanged a].
  change (Gui.is_monitoring (Gui.filter_processes (Gui.set_process_list ps a)))
    with (Gui.is_monitoring a).
  destruct (Gui.is_monitoring a) eqn:Hm; lifecycle_unchanged a.
Qed.

Lemma handle_lifecycle_consistent (a : Gui.ProcessSpyApp) (ev : Gui.event) :
  Gui.lifecycle_consistent a -> Gui.lifecycle_consistent (Gui.handle a ev).
Proof.
  intros H. destruct ev as [v|j|host|ps|clock|p|khost host d p|d|stamp host fs];
    simpl.
  - lifecycle_unchanged a.
  - unfold Gui.toggle_monitoring. destruct (Gui.is_monitoring a).
    + split; [|reflexivity]. simpl. now rewrite stop_monitoring_monitoring.
    + split; [|reflexivity]. simpl. now rewrite start_monitoring_monitoring.
  - now apply refresh_processes_lifecycle.
  - lifecycle_unchanged a.
  - lifecycle_unchanged a.
  - lifecycle_unchanged a.
  - unfold Gui.confirm_kill.
    pose proof (kill_process_monitoring khost p (Gui.monitor a)) as Hk.
    destruct (kill_process khost p (Gui.monitor a)) as [[[|]|ex] m']; simpl in *;
      [| | exact H].
    + assert (H1 : Gui.lifecycle_consistent
                     (Gui.refresh_processes host
                        (Gui.set_status (Gui.ProcessKilled p, Gui.GREEN)
                           (Gui.set_monitor m' a)))).
      { apply refresh_processes_lifecycle.
        apply (lifecycle_consistent_ext a); [reflexivity|exact Hk|reflexivity|exact H]. }
      lifecycle_unchanged
        (Gui.refresh_processes host
           (Gui.set_status (Gui.ProcessKilled p, Gui.GREEN) (Gui.set_monitor m' a))).
    + apply (lifecycle_consistent_ext a); [reflexivity|exact Hk|reflexivity|exact H].
  - lifecycle_unchanged a.
  - unfold Gui.save_snapshot.
    pose proof (save_snapshot_monitoring host
                  ("process_snapshot_" ++ stamp ++ ".json")%string
                  (Gui.monitor a) fs) as Hs.
    destruct (save_snapshot host _ (Gui.monitor a) fs) as [[[u|ex] m'] fs'];
      simpl in *; [|lifecycle_unchanged a].
    apply (lifecycle_consistent_ext a); [reflexivity|exact Hs|reflexivity|exact H].
Qed.

(** X13: along any use of the window, its own [is_monitoring] flag equals
    the monitor's [monitoring] flag, and the start/stop button offers to
    stop exactly when monitoring is on; so a click on the button always
    does what its label says. *)
Theorem lifecycle_always_consistent
    (host : enumeration) (cb : callback) (evs : list Gui.event) (joined : bool) :
  Gui.lifecycle_consistent (Gui.handle_all evs (Gui.new_app host cb))
  /\ monitoring
       (Gui.monitor
          (Gui.toggle_monitoring joined
             (Gui.handle_all evs (Gui.new_app host cb))))
     = negb (monitoring (Gui.monitor (Gui.handle_all evs (Gui.new_app host cb)))).
Proof.
  assert (H : Gui.lifecycle_consistent (Gui.handle_all evs (Gui.new_app host cb))).
  { assert (H0 : Gui.lifecycle_consistent (Gui.new_app host cb)).
    { assert (H : Gui.lifecycle_consistent (Gui.refresh_processes host Gui.blank)).
      { apply refresh_processes_lifecycle. split; reflexivity. }
      lifecycle_unchanged (Gui.refresh_processes host Gui.blank). }
    unfold Gui.handle_all. revert H0. generalize (Gui.new_app host cb).
    induction evs as [|ev evs IH]; intros a Ha; [exact Ha|].
    simpl. apply IH. now apply handle_lifecycle_consistent. }
  split; [exact H|].
  destruct H as (Hm & _). unfold Gui.toggle_monitoring.
  destruct (Gui.is_monitoring _) eqn:Hi; rewrite <- Hm; simpl.
  - apply stop_monitoring_monitoring.
  - apply start_monitoring_monitoring.
Qed.

(** ** Failures and messages in the window *)

(** X14: a failed enumeration during a refresh and a failed save during a
    snapshot are caught, whatever the error, and the status line shows
    the error in red.  After the failed refresh the process list, the
    filtered list and the rows are as they were.  After the failed save
    the monitor is as it was and the files are what the monitor's
    [save_snapshot] left: unchanged, unless the writing broke off, which
    leaves a torn file under the snapshot's name and every other path
    as it was.  An error raised by the monitor's [kill_process] is not
    caught by [confirm_kill]: it leaves the handler, with the window as
    it was and the dialog still open. *)
Theorem window_failures
    (host : enumeration) (shost : save_host) (khost : kill_host)
    (stamp : string) (fs : files) (d : nat) (p : Z) (ex : exn)
    (a : Gui.ProcessSpyApp) :
  (get_processes host = Raise ex ->
     Gui.status_text (Gui.refresh_processes host a) = (Gui.Failed ex, Gui.RED)
     /\ Gui.process_list (Gui.refresh_processes host a) = Gui.process_list a
     /\ Gui.filtered_processes (Gui.refresh_processes host a)
        = Gui.filtered_processes a
     /\ Gui.rows (Gui.refresh_processes host a) = Gui.rows a)
  /\ (fst (fst (save_snapshot shost
                  ("process_snapshot_" ++ stamp ++ ".json")%string
                  (Gui.monitor a) fs)) = Raise ex ->
      Gui.status_text (fst (Gui.save_snapshot stamp shost a fs))
      = (Gui.SaveFailed ex, Gui.RED)
      /\ Gui.monitor (fst (Gui.save_snapshot stamp shost a fs)) = Gui.monitor a
      /\ snd (Gui.save_snapshot stamp shost a fs)
         = snd (save_snapshot shost
                  ("process_snapshot_" ++ stamp ++ ".json")%string
                  (Gui.monitor a) fs)
      /\ (save_write shost = None ->
          snd (Gui.save_snapshot stamp shost a fs) = fs)
      /\ (forall ps, get_processes (save_enumeration shost) = Ok ps ->
          save_open shost = None ->
          snd (Gui.save_snapshot stamp shost a fs)
          = <[("process_snapshot_" ++ stamp ++ ".json")%string
              := Torn (snapshot_document (save_now shost) ps)]> fs)
      /\ (forall other,
          other <> ("process_snapshot_" ++ stamp ++ ".json")%string ->
          snd (Gui.save_snapshot stamp shost a fs) !! other = fs !! other))
  /\ (fst (kill_process khost p (Gui.monitor a)) = Raise ex ->
      Gui.confirm_kill khost host d p a = (Raise ex, a)).
Proof.
  split.
  { intros H. unfold Gui.refresh_processes. rewrite H. repeat split. }
  split.
  { unfold Gui.save_snapshot, save_snapshot.
    destruct (get_processes (save_enumeration shost)) as [ps|e]; simpl.
    - destruct (save_open shost) as [e|]; simpl.
      + intros [= ->]. split; [reflexivity|]. split; [reflexivity|].
        split; [reflexivity|]. split; [reflexivity|].
        split; [intros ps' _ H; discriminate H|].
        intros other _. reflexivity.
      + destruct (save_write shost) as [e|]; simpl; [|discriminate].
        intros [= ->]. split; [reflexivity|]. split; [reflexivity|].
        split; [reflexivity|]. split; [discriminate|].
        split; [now intros ps' [= <-] _|].
        intros other Hne. now apply lookup_insert_ne.
    - intros [= ->]. split; [reflexivity|]. split; [reflexivity|].
      split; [reflexivity|]. split; [reflexivity|].
      split; [intros ps' H; discriminate H|].
      intros other _. reflexivity. }
  unfold Gui.confirm_kill.
  destruct (kill_process khost p (Gui.monitor a)) as [[b|e] m']; simpl;
    [discriminate|]. now intros [= ->].
Qed.

Lemma window_failures_witness :
  Gui.status_text (Gui.refresh_processes broken_host Gui.blank)
  = (Gui.Failed (OtherError "OSError"), Gui.RED)
  /\ snd (Gui.save_snapshot "20240501_120000" full_disk_host Gui.blank ∅)
     = <[ "process_snapshot_20240501_120000.json"
          := Torn (snapshot_document "2024-05-01T12:00:00.000000"
                     [new_ProcessInfo (info_of 1 "init")]) ]> ∅
  /\ Gui.confirm_kill empty_host [] 0 (-1) Gui.blank
     = (Raise (OtherError "ValueError"), Gui.blank).
Proof.
  destruct (window_failures broken_host full_disk_host empty_host
              "20240501_120000" ∅ 0 (-1) (OtherError "OSError") Gui.blank)
    as (H1 & H2 & _).
  destruct (window_failures broken_host full_disk_host empty_host
              "20240501_120000" ∅ 0 (-1) (OtherError "ValueError") Gui.blank)
    as (_ & _ & H3).
  split; [apply H1; reflexivity|].
  split; [|apply H3; reflexivity].
  destruct (H2 eq_refl) as (_ & _ & _ & _ & H & _).
  apply (H [new_ProcessInfo (info_of 1 "init")]); reflexivity.
Defined.

Lemma string_length_append (a b : string) :
  String.length (a ++ b)%string = (String.length a + String.length b)%nat.
Proof.
  induction a as [|c a IH]; [reflexivity|].
  change (S (String.length (a ++ b)%string)
          = S (String.length a + String.length b)).
  now rewrite IH.
Qed.

Lemma substring_prefix (n : nat) (s : string) :
  String.length (String.substring 0 n s) = Nat.min n (String.length s)
  /\ exists rest, s = (String.substring 0 n s ++ rest)%string.
Proof.
  revert s. induction n as [|n IH]; intros s.
  - destruct s; (split; [reflexivity|]); eexists; reflexivity.
  - destruct s as [|c s].
    + split; [reflexivity|]. now exists "".
    + destruct (IH s) as (Hl & rest & Hr).
      change (String.substring 0 (S n) (String c s))
        with (String c (String.substring 0 n s)).
      split.
      * change (S (String.length (String.substring 0 n s))
                = S (Nat.min n (String.length s))). now rewrite Hl.
      * exists rest.
        change (String c s = String c (String.substring 0 n s ++ rest)%string).
        now rewrite <- Hr.
Qed.

(** X15: the name cell of a row is never longer than 23 characters: a
    name of at most 20 characters is shown as it is, a longer one as its
    first 20 characters followed by three dots. *)
Theorem display_name_bounded (nm : string) (a : Gui.ProcessSpyApp) :
  (String.length (Gui.display_name nm) <= 23)%nat
  /\ ((String.length nm <= 20)%nat -> Gui.display_name nm = nm)
  /\ ((20 < String.length nm)%nat ->
      String.length (Gui.display_name nm) = 23%nat
      /\ exists first rest,
           String.length first = 20%nat
           /\ nm = (first ++ rest)%string
           /\ Gui.display_name nm = (first ++ "...")%string)
  /\ (forall r, r ∈ Gui.rows (Gui.update_table a) ->
      (String.length (Gui.cell_name r) <= 23)%nat).
Proof.
  assert (Hlong : (20 < String.length nm)%nat ->
            String.length (Gui.display_name nm) = 23%nat
            /\ exists first rest,
                 String.length first = 20%nat
                 /\ nm = (first ++ rest)%string
                 /\ Gui.display_name nm = (first ++ "...")%string).
  { intros H. unfold Gui.display_name.
    destruct (Nat.ltb_spec 20 (String.length nm)) as [_|Hle]; [|lia].
    destruct (substring_prefix 20 nm) as (Hl & rest & Hr).
    rewrite Nat.min_l in Hl by lia.
    split; [rewrite string_length_append, Hl; reflexivity|].
    exists (String.substring 0 20 nm), rest. auto. }
  assert (Hshort : (String.length nm <= 20)%nat -> Gui.display_name nm = nm).
  { intros H. unfold Gui.display_name.
    destruct (Nat.ltb_spec 20 (String.length nm)); [lia|reflexivity]. }
  assert (Hall : forall s, (String.length (Gui.display_name s) <= 23)%nat).
  { intros s. unfold Gui.display_name.
    destruct (Nat.ltb_spec 20 (String.length s)) as [Hlt|Hle]; [|lia].
    destruct (substring_prefix 20 s) as (Hl & _).
    rewrite string_length_append, Hl.
    change (String.length "...") with 3%nat. lia. }
  split; [apply Hall|]. split; [exact Hshort|]. split; [exact Hlong|].
  intros r Hr. simpl in Hr.
  apply list_elem_of_fmap in Hr as (q & -> & _). apply Hall.
Qed.

Lemma display_name_bounded_witness :
  Gui.display_name "sshd" = "sshd".
Proof.
  destruct (display_name_bounded "sshd" Gui.blank) as (_ & H & _).
  apply H. simpl. lia.
Defined.

(** X16: when [confirm_kill] has the monitor kill the process, the
    message that the process was terminated stays on the status line
    only while monitoring is on: the refresh that follows replaces it by
    "data refreshed" when monitoring is off, and by the error when the
    enumeration fails.  When the monitor reports a failure, the status
    line says so in red and the process list is not refreshed.  In both
    cases the dialog that asked is closed. *)
Theorem confirm_kill_status
    (khost : kill_host) (host : enumeration) (d : nat) (p : Z)
    (a : Gui.ProcessSpyApp) :
  match fst (kill_process khost p (Gui.monitor a)) with
  | Raise ex => Gui.confirm_kill khost host d p a = (Raise ex, a)
  | Ok true =>
      fst (Gui.confirm_kill khost host d p a) = Ok tt
      /\ Gui.status_text (snd (Gui.confirm_kill khost host d p a))
         = match get_processes host with
           | Raise ex => (Gui.Failed ex, Gui.RED)
           | Ok _ =>
               if Gui.is_monitoring a then (Gui.ProcessKilled p, Gui.GREEN)
               else (Gui.DataRefreshed, Gui.GREEN)
           end
      /\ (forall q o, Gui.dialogs a !! d = Some (q, o) ->
          Gui.dialogs (snd (Gui.confirm_kill khost host d p a)) !! d
          = Some (q, false))
  | Ok false =>
      fst (Gui.confirm_kill khost host d p a) = Ok tt
      /\ Gui.status_text (snd (Gui.confirm_kill khost host d p a))
         = (Gui.KillFailed p, Gui.RED)
      /\ Gui.process_list (snd (Gui.confirm_kill khost host d p a))
         = Gui.process_list a
      /\ (forall q o, Gui.dialogs a !! d = Some (q, o) ->
          Gui.dialogs (snd (Gui.confirm_kill khost host d p a)) !! d
          = Some (q, false))
  end.
Proof.
  unfold Gui.confirm_kill.
  destruct (kill_process khost p (Gui.monitor a)) as [[[|]|ex] m']; simpl;
    [| |reflexivity].
  - split; [reflexivity|]. split.
    + unfold Gui.refresh_processes.
      destruct (get_processes host) as [ps|ex]; [|reflexivity].
      change (Gui.is_monitoring
                (Gui.filter_processes
                   (Gui.set_process_list ps
                      (Gui.set_status (Gui.ProcessKilled p, Gui.GREEN)
                         (Gui.set_monitor m' a)))))
        with (Gui.is_monitoring a).
      destruct (Gui.is_monitoring a); reflexivity.
    + intros q o Hd.
      assert (Hdl : Gui.dialogs
                      (Gui.refresh_processes host
                         (Gui.set_status (Gui.ProcessKilled p, Gui.GREEN)
                            (Gui.set_monitor m' a))) = Gui.dialogs a).
      { unfold Gui.refresh_processes.
        destruct (get_processes host) as [ps|ex]; [|reflexivity].
        change (Gui.is_monitoring
                  (Gui.filter_processes
                     (Gui.set_process_list ps
                        (Gui.set_status (Gui.ProcessKilled p, Gui.GREEN)
                           (Gui.set_monitor m' a)))))
          with (Gui.is_monitoring a).
        destruct (Gui.is_monitoring a); reflexivity. }
      unfold Gui.close_dialog. simpl. rewrite Hdl, Hd.
      apply list_lookup_insert_eq. now apply lookup_lt_Some in Hd.
  - split; [reflexivity|]. split; [reflexivity|]. split; [reflexivity|].
    intros q o Hd. unfold Gui.close_dialog. simpl. rewrite Hd.
    apply list_lookup_insert_eq. now apply lookup_lt_Some in Hd.
Qed.
